(** * sahel-smartland: raster colouring, temporal interpolation and statistics

    A shallow embedding of [src/lib/geospatialUtils.ts] and of the
    year-bracketing memo of [src/components/MapVisualization.tsx].

    Numbers.  A JavaScript [number] is modelled by the type [number] below:
    a finite value carried as an exact rational, or one of the three special
    values [Infinity], [-Infinity] and [NaN], which the code itself creates
    ([Math.max()] and [Math.min()] of an empty argument list).  Arithmetic on
    finite values is exact: binary64 rounding and overflow are not modelled,
    and zero carries no sign.  Two rationals denote the same JavaScript
    number when they are [Qeq]-equal, so numeric results are compared with
    [==] and [num_eq], never by the representation of a fraction.

    The cell values, bounds and years handed to the functions are finite
    numbers; the special values are modelled because the code produces them
    from finite inputs.  The statements about interpolation and land-cover
    painting hold for every [number], special values included.

    Randomness.  [Math.random()] reads an explicit generator state [Rng]
    that is threaded through every function drawing from it.

    Canvas.  Of [renderTIFFToCanvas] the model keeps the [ImageData] buffer
    that is put on the canvas; smoothing and the blur pass act on the canvas
    afterwards and are outside the model. *)

From stdpp Require Import prelude gmap strings pretty.
From Stdlib Require Import Ascii QArith Qround Qabs Lqa Lia.

Local Open Scope Q_scope.

(* ===================================================================== *)
(** ** JavaScript numbers *)
(* ===================================================================== *)

Inductive number : Type :=
| Fin (q : Q)
| PInf
| NInf
| NaN.

Module Num.

(** IEEE comparison: [None] when either side is [NaN]. *)
Definition compare (a b : number) : option comparison :=
  match a, b with
  | NaN, _ | _, NaN => None
  | Fin x, Fin y => Some (x ?= y)
  | PInf, PInf | NInf, NInf => Some Eq
  | PInf, _ | _, NInf => Some Gt
  | NInf, _ | _, PInf => Some Lt
  end.

(** [a < b], [a <= b], [a > b], [a >= b] and [a === b]. *)
Definition ltb (a b : number) : bool :=
  match compare a b with Some Lt => true | _ => false end.
Definition leb (a b : number) : bool :=
  match compare a b with Some Lt | Some Eq => true | _ => false end.
Definition gtb (a b : number) : bool :=
  match compare a b with Some Gt => true | _ => false end.
Definition geb (a b : number) : bool :=
  match compare a b with Some Gt | Some Eq => true | _ => false end.
Definition strict_eq (a b : number) : bool :=
  match compare a b with Some Eq => true | _ => false end.

(** SameValueZero, the comparison of [Array.prototype.includes]. *)
Definition same_value_zero (a b : number) : bool :=
  match a, b with
  | NaN, NaN => true
  | _, _ => strict_eq a b
  end.

Definition neg (a : number) : number :=
  match a with
  | Fin x => Fin (- x)
  | PInf => NInf
  | NInf => PInf
  | NaN => NaN
  end.

Definition add (a b : number) : number :=
  match a, b with
  | NaN, _ | _, NaN => NaN
  | Fin x, Fin y => Fin (x + y)
  | PInf, NInf | NInf, PInf => NaN
  | PInf, _ | _, PInf => PInf
  | NInf, _ | _, NInf => NInf
  end.

Definition sub (a b : number) : number := add a (neg b).

(** An infinity scaled by a finite factor. *)
Definition scale_inf (inf : number) (x : Q) : number :=
  match x ?= 0 with
  | Eq => NaN
  | Gt => inf
  | Lt => neg inf
  end.

Definition mul (a b : number) : number :=
  match a, b with
  | NaN, _ | _, NaN => NaN
  | Fin x, Fin y => Fin (x * y)
  | Fin x, inf => scale_inf inf x
  | inf, Fin y => scale_inf inf y
  | PInf, PInf | NInf, NInf => PInf
  | PInf, NInf | NInf, PInf => NInf
  end.

(** Division; a zero divisor is taken as [+0]. *)
Definition div (a b : number) : number :=
  match a, b with
  | NaN, _ | _, NaN => NaN
  | Fin x, Fin y =>
      if Qeq_bool y 0 then
        match x ?= 0 with Eq => NaN | Gt => PInf | Lt => NInf end
      else Fin (x / y)
  | Fin _, _ => Fin 0
  | inf, Fin y => match y ?= 0 with Lt => neg inf | _ => inf end
  | _, _ => NaN
  end.

(** ToBoolean on a number: [0] and [NaN] are falsy. *)
Definition truthy (a : number) : bool :=
  match a with
  | Fin x => negb (Qeq_bool x 0)
  | NaN => false
  | _ => true
  end.

(** [a || b] on numbers. *)
Definition or_else (a b : number) : number := if truthy a then a else b.

Definition max2 (a b : number) : number :=
  match a, b with
  | NaN, _ | _, NaN => NaN
  | _, _ => if ltb a b then b else a
  end.

Definition min2 (a b : number) : number :=
  match a, b with
  | NaN, _ | _, NaN => NaN
  | _, _ => if ltb b a then b else a
  end.

(** [Math.max(...xs)] and [Math.min(...xs)]: the empty spread gives
    [-Infinity], respectively [Infinity]. *)
Definition Math_max (xs : list number) : number := foldr max2 NInf xs.
Definition Math_min (xs : list number) : number := foldr min2 PInf xs.

Definition Math_floor (a : number) : number :=
  match a with
  | Fin x => Fin (inject_Z (Qfloor x))
  | _ => a
  end.

(** [Math.round]: the nearest integer, ties towards [+Infinity]. *)
Definition Math_round (a : number) : number :=
  match a with
  | Fin x => Fin (inject_Z (Qfloor (x + (1 # 2))))
  | _ => a
  end.

(** The integer a number denotes, when it denotes one: the number's
    property key, for objects and arrays whose keys are integers. *)
Definition to_index (a : number) : option Z :=
  match a with
  | Fin x => if Qeq_bool x (inject_Z (Qfloor x)) then Some (Qfloor x) else None
  | _ => None
  end.

(** Numeric equality of two numbers as values: [NaN] is [NaN]. *)
Definition eq (a b : number) : Prop :=
  match a, b with
  | Fin x, Fin y => x == y
  | PInf, PInf | NInf, NInf | NaN, NaN => True
  | _, _ => False
  end.

End Num.

Abbreviation num_eq := Num.eq.

(** An integer literal of the source. *)
Definition num (z : Z) : number := Fin (inject_Z z).

(* ===================================================================== *)
(** ** Available years and the year bracket of [MapVisualization] *)
(* ===================================================================== *)

(** [getAvailableYears]: fourteen years from 2010, or the three census years. *)
Definition getAvailableYears (dataType : string) : list number :=
  let standardYears := map (fun i : nat => num (2010 + Z.of_nat i)) (seq 0 14) in
  if String.eqb dataType "population" then [num 2010; num 2015; num 2020]
  else standardYears.

Record TemporalQuery : Type := {
  prevYear : number;
  nextYear : number;
  progress : number
}.

Definition includes (xs : list number) (x : number) : bool :=
  existsb (fun y => Num.same_value_zero y x) xs.

(** The body of the [useMemo] at the top of the component, for a given list
    of available years. *)
Definition resolveTemporalQuery (year : number) (availableYears : list number)
  : TemporalQuery :=
  if includes availableYears year then
    {| prevYear := year; nextYear := year; progress := Fin 0 |}
  else
    let prevYear := Num.Math_max (List.filter (fun y => Num.leb y year) availableYears) in
    let nextYear := Num.Math_min (List.filter (fun y => Num.geb y year) availableYears) in
    let yearRange := Num.sub nextYear prevYear in
    let progress :=
      if Num.gtb yearRange (Fin 0) then Num.div (Num.sub year prevYear) yearRange
      else Fin 0 in
    {| prevYear := prevYear; nextYear := nextYear; progress := progress |}.

(** The memo itself: the bracket of [year] for the component's [dataType]. *)
Definition yearBracket (year : number) (dataType : string) : TemporalQuery :=
  resolveTemporalQuery year (getAvailableYears dataType).

(* ===================================================================== *)
(** ** [Math.random] *)
(* ===================================================================== *)

(** The generator: an unbounded supply of draws and the position of the
    next one.  [Math.random()] returns the draw under the cursor and moves
    the cursor on. *)
Record Rng : Type := {
  draws : nat -> Q;
  cursor : nat
}.

Definition Rand (A : Type) : Type := Rng -> A * Rng.

Definition ret {A : Type} (a : A) : Rand A := fun g => (a, g).

Definition bind {A B : Type} (c : Rand A) (k : A -> Rand B) : Rand B :=
  fun g => let '(a, g') := c g in k a g'.

Notation "'let*' x ':=' c 'in' k" := (bind c (fun x => k))
  (at level 10, x name, c at level 100, k at level 200).

Definition Math_random : Rand number :=
  fun g => (Fin (draws g (cursor g)),
            {| draws := draws g; cursor := S (cursor g) |}).

(** [Math.random()] returns a number in [[0, 1)]. *)
Definition unit_draws (g : Rng) : Prop :=
  forall n : nat, 0 <= draws g n /\ draws g n < 1.

(* ===================================================================== *)
(** ** Temporal interpolation *)
(* ===================================================================== *)

(** The callback of [startData.map] in [interpolateData], for one pair of
    cells: a draw is made only when the two cells differ. *)
Definition blendCell (startValue endValue progress : number) : Rand number :=
  if Num.strict_eq startValue endValue then ret startValue
  else
    let* r := Math_random in
    ret (if Num.ltb r progress then endValue else startValue).

(** The map itself.  The two arrays have the same length when it runs, so
    [endData[index]] is the cell met by walking both arrays together. *)
Fixpoint blendCells (startData endData : list number) (progress : number)
  : Rand (list number) :=
  match startData, endData with
  | startValue :: startRest, endValue :: endRest =>
      let* cell := blendCell startValue endValue progress in
      let* rest := blendCells startRest endRest progress in
      ret (cell :: rest)
  | _, _ => ret []
  end.

Definition interpolateData (startData endData : list number) (progress : number)
  : Rand (list number) :=
  if negb (length startData =? length endData)%nat || (length startData =? 0)%nat
  then ret endData
  else blendCells startData endData progress.

(* ===================================================================== *)
(** ** Colour tables *)
(* ===================================================================== *)

Local Open Scope string_scope.

Definition landCoverColors : gmap string string :=
  list_to_map
    [ ("7", "#1a9850"); ("8", "#91cf60"); ("9", "#d9ef8b"); ("10", "#fee08b");
      ("11", "#66c2a5"); ("12", "#fc8d59"); ("13", "#d73027"); ("14", "#fdae61");
      ("15", "#f7f7f7"); ("16", "#bababa"); ("0", "#4d4d4d") ].

Definition landCoverClasses : gmap string string :=
  list_to_map
    [ ("7", "Forests"); ("8", "Shrublands"); ("9", "Savannas");
      ("10", "Grasslands"); ("11", "Wetlands"); ("12", "Croplands");
      ("13", "Urban"); ("14", "Cropland/Natural Mosaic");
      ("15", "Snow and Ice"); ("16", "Barren"); ("0", "No Data") ].

Definition precipitationColorScale : list string :=
  [ "#f7fbff"; "#deebf7"; "#c6dbef"; "#9ecae1"; "#6baed6"; "#4292c6";
    "#2171b5"; "#08519c"; "#08306b" ].

Definition vegetationProductivityScale : list string :=
  [ "#f7fcf5"; "#e5f5e0"; "#c7e9c0"; "#a1d99b"; "#74c476"; "#41ab5d";
    "#238b45"; "#006d2c"; "#00441b" ].

Definition populationDensityScale : list string :=
  [ "#ffffcc"; "#ffeda0"; "#fed976"; "#feb24c"; "#fd8d3c"; "#fc4e2a";
    "#e31a1c"; "#bd0026"; "#800026" ].

Definition transparent : string := "#ffffff00".

(** The property name a number stands for when it indexes an object or an
    array.  Every key of the tables here is the decimal form of an integer,
    so a number that is not an integer names no property of them. *)
Definition propertyKey (n : number) : option string :=
  match Num.to_index n with
  | Some z => Some (pretty z)
  | None => None
  end.

(** [obj[n]]: [None] is [undefined]. *)
Definition objectGet {A : Type} (obj : gmap string A) (n : number) : option A :=
  match propertyKey n with
  | Some key => obj !! key
  | None => None
  end.

(** [xs[n]] on an array: [None] is [undefined]. *)
Definition arrayGet {A : Type} (xs : list A) (n : number) : option A :=
  match Num.to_index n with
  | Some z => if (0 <=? z)%Z then xs !! Z.to_nat z else None
  | None => None
  end.

(* ===================================================================== *)
(** ** Continuous colour mapping *)
(* ===================================================================== *)

(** The local [normalized] of the three colour functions:
    [Math.max(0, Math.min(1, (value - min) / (max - min || 1)))]. *)
Definition normalized (value min max : number) : number :=
  Num.max2 (Fin 0)
    (Num.min2 (Fin 1)
       (Num.div (Num.sub value min) (Num.or_else (Num.sub max min) (Fin 1)))).

(** The local [index]:
    [Math.floor(normalized * (scale.length - 1))]. *)
Definition scaleIndex (scale : list string) (value min max : number) : number :=
  Num.Math_floor
    (Num.mul (normalized value min max)
       (Num.sub (num (Z.of_nat (length scale))) (Fin 1))).

Definition getPrecipitationColor (value min max : number) : option string :=
  let index := scaleIndex precipitationColorScale value min max in
  arrayGet precipitationColorScale index.

Definition getVegetationColor (value min max : number) : option string :=
  if Num.strict_eq value (num 65533) || Num.leb value (Fin 0) then Some transparent
  else
    let index := scaleIndex vegetationProductivityScale value min max in
    arrayGet vegetationProductivityScale index.

Definition getPopulationDensityColor (value min max : number) : option string :=
  if Num.ltb value (Fin 0) then Some transparent
  else
    let index := scaleIndex populationDensityScale value min max in
    arrayGet populationDensityScale index.

(* ===================================================================== *)
(** ** Painting a frame: the pixel loop of [renderTIFFToCanvas] *)
(* ===================================================================== *)

(** [a || b] on colours: [undefined] and the empty string are falsy. *)
Definition colorOrElse (a b : option string) : option string :=
  match a with
  | Some s => if String.eqb s "" then b else a
  | None => b
  end.

(** The [color] chosen for one cell; [None] is [undefined]. *)
Definition cellColor (dataType : string) (value min max : number) : option string :=
  if String.eqb dataType "precipitation" then
    getPrecipitationColor value min max
  else if String.eqb dataType "vegetation" then
    if Num.strict_eq value (num 65533) then Some transparent
    else getVegetationColor value min max
  else if String.eqb dataType "population" then
    getPopulationDensityColor value min max
  else
    colorOrElse (objectGet landCoverColors value) (objectGet landCoverColors (Fin 0)).

Definition hexDigit (c : Ascii.ascii) : option Z :=
  let n := Z.of_N (Ascii.N_of_ascii c) in
  if (48 <=? n)%Z && (n <=? 57)%Z then Some (n - 48)%Z
  else if (97 <=? n)%Z && (n <=? 102)%Z then Some (n - 87)%Z
  else if (65 <=? n)%Z && (n <=? 70)%Z then Some (n - 55)%Z
  else None.

Fixpoint hexPrefix (s : string) (acc : option Z) : option Z :=
  match s with
  | String c rest =>
      match hexDigit c with
      | Some d => hexPrefix rest (Some (16 * default 0%Z acc + d)%Z)
      | None => acc
      end
  | EmptyString => acc
  end.

(** [parseInt(s, 16)] on the two-character slices of a colour: the value of
    the leading run of hexadecimal digits, [NaN] when there is none.  (No
    colour of the tables has white space, a sign or a [0x] prefix.) *)
Definition parseInt16 (s : string) : number :=
  match hexPrefix s None with
  | Some z => num z
  | None => NaN
  end.

(** [color.slice(from, to)] for [from <= to] within the usual range. *)
Definition slice (color : string) (from to : nat) : string :=
  String.substring from (to - from) color.

Definition roundHalfEven (q : Q) : Z :=
  let f := Qfloor q in
  match (q - inject_Z f ?= 1 # 2)%Q with
  | Lt => f
  | Gt => (f + 1)%Z
  | Eq => if Z.even f then f else (f + 1)%Z
  end.

(** The conversion a [Uint8ClampedArray] applies to a stored number. *)
Definition toUint8Clamp (x : number) : Z :=
  match x with
  | NaN | NInf => 0%Z
  | PInf => 255%Z
  | Fin q =>
      if Qle_bool q 0 then 0%Z
      else if Qle_bool 255 q then 255%Z
      else roundHalfEven q
  end.

(** The four channel bytes of a colour under an opacity. *)
Definition channels (color : string) (opacity : number) : Z * Z * Z * Z :=
  let r := parseInt16 (slice color 1 3) in
  let g := parseInt16 (slice color 3 5) in
  let b := parseInt16 (slice color 5 7) in
  let a := if (7 <? String.length color)%nat then parseInt16 (slice color 7 9)
           else num 255 in
  (toUint8Clamp r, toUint8Clamp g, toUint8Clamp b,
   toUint8Clamp (Num.mul (Num.mul (Num.div a (num 255)) opacity) (num 255))).

(** The four stores of one iteration; a store past the end of the typed
    array is dropped. *)
Definition writePixel (pixels : list Z) (i : nat) (color : string) (opacity : number)
  : list Z :=
  let '(r, g, b, a) := channels color opacity in
  let pixelIndex := (i * 4)%nat in
  <[(pixelIndex + 3)%nat := a]>
    (<[(pixelIndex + 2)%nat := b]>
       (<[(pixelIndex + 1)%nat := g]>
          (<[pixelIndex := r]> pixels))).

(** The [for] loop from cell [i] on; [None] when [color.slice] is called on
    [undefined] and the loop is left by the exception. *)
Fixpoint paintCells (dataType : string) (min max opacity : number)
    (data : list number) (i : nat) (pixels : list Z) : option (list Z) :=
  match data with
  | [] => Some pixels
  | value :: rest =>
      match cellColor dataType value min max with
      | None => None
      | Some color =>
          paintCells dataType min max opacity rest (S i)
            (writePixel pixels i color opacity)
      end
  end.

Record RenderOptions : Type := {
  opt_opacity : option number;
  opt_dataType : option string;
  opt_min : option number;
  opt_max : option number;
  opt_smoothing : option bool
}.

Inductive RenderResult : Type :=
| NotDrawn
| Threw
| Drawn (pixels : list Z).

(** [renderTIFFToCanvas] up to [putImageData], on a canvas context that
    exists: the contents of the [ImageData] buffer handed to the canvas. *)
Definition renderTIFFToCanvas (data : list number) (width height : nat)
    (options : RenderOptions) : RenderResult :=
  if (length data =? 0)%nat || (width =? 0)%nat || (height =? 0)%nat then NotDrawn
  else
    let opacity := default (Fin 1) (opt_opacity options) in
    let dataType := default "landCover" (opt_dataType options) in
    let min := default (Fin 0) (opt_min options) in
    let max := default (num 500) (opt_max options) in
    let pixels := replicate (width * height * 4) 0%Z in
    match paintCells dataType min max opacity data 0 pixels with
    | Some painted => Drawn painted
    | None => Threw
    end.

(* ===================================================================== *)
(** ** Statistics *)
(* ===================================================================== *)

Definition Object_keys {A : Type} (obj : gmap string A) : list string :=
  (map_to_list obj).*1.

(** [acc + val] folded from [0] over an array. *)
Definition sumOf (xs : list number) : number := foldl Num.add (Fin 0) xs.

Definition calculateLandCoverStats (data : list number) : gmap string number :=
  let stats := foldr (fun key stats => <[key := Fin 0]> stats) ∅
                 (Object_keys landCoverClasses) in
  foldl
    (fun (stats : gmap string number) value =>
       match propertyKey value with
       | Some key =>
           match stats !! key with
           | Some count => <[key := Num.add count (Fin 1)]> stats
           | None => stats
           end
       | None => stats
       end)
    stats data.

Definition precipitationZero : gmap string number :=
  list_to_map [("average", Fin 0); ("min", Fin 0); ("max", Fin 0); ("total", Fin 0)].

Definition calculatePrecipitationStats (data : list number) (noDataValue : option number)
  : gmap string number :=
  let noDataValue := default (Fin 0) noDataValue in
  if (length data =? 0)%nat then precipitationZero
  else
    let validData :=
      List.filter
        (fun value => negb (Num.strict_eq value noDataValue) && Num.gtb value (Fin 0.1))
        data in
    if (length validData =? 0)%nat then precipitationZero
    else
      let sum := sumOf validData in
      let min := Num.Math_min validData in
      let max := Num.Math_max validData in
      list_to_map
        [ ("average", Num.div sum (num (Z.of_nat (length validData))));
          ("min", min); ("max", max); ("total", sum) ].



Definition populationZero : gmap string number :=
  list_to_map
    [ ("totalPopulation", Fin 0); ("averageDensity", Fin 0); ("maxDensity", Fin 0);
      ("urbanPopulation", Fin 0); ("ruralPopulation", Fin 0);
      ("populationGrowthRate", Fin 0); ("populationUnder15", Fin 0);
      ("populationOver65", Fin 0); ("malePopulation", Fin 0);
      ("femalePopulation", Fin 0) ].

Definition calculatePopulationStats (data : list number) : gmap string number :=
  if (length data =? 0)%nat then populationZero
  else
    let validData := List.filter (fun value => Num.gtb value (Fin 0)) data in
    if (length validData =? 0)%nat then populationZero
    else
      let sum := sumOf validData in
      let max := Num.Math_max validData in
      let totalPopulation := Num.Math_round (Num.mul sum (Fin 0.1)) in
      let urbanDensityThreshold := Num.mul max (Fin 0.3) in
      let urbanPopulationTotal :=
        sumOf (List.filter (fun val => Num.geb val urbanDensityThreshold) validData) in
      let urbanPopulation := Num.Math_round (Num.mul urbanPopulationTotal (Fin 0.1)) in
      let ruralPopulation := Num.sub totalPopulation urbanPopulation in
      let populationUnder15 := Num.Math_round (Num.mul totalPopulation (Fin 0.44)) in
      let populationOver65 := Num.Math_round (Num.mul totalPopulation (Fin 0.03)) in
      let femalePopulation := Num.Math_round (Num.mul totalPopulation (Fin 0.51)) in
      let malePopulation := Num.sub totalPopulation femalePopulation in
      let populationGrowthRate := Fin 3.1 in
      list_to_map
        [ ("totalPopulation", totalPopulation);
          ("averageDensity", Num.div sum (num (Z.of_nat (length validData))));
          ("maxDensity", max);
          ("urbanPopulation", urbanPopulation);
          ("ruralPopulation", ruralPopulation);
          ("populationGrowthRate", populationGrowthRate);
          ("populationUnder15", populationUnder15);
          ("populationOver65", populationOver65);
          ("malePopulation", malePopulation);
          ("femalePopulation", femalePopulation) ].

(** The placeholder: four draws, whatever the data. *)
Definition calculateTransitionStats (data : list number) : Rand (gmap string number) :=
  let* transitionIntensity := Math_random in
  let* degradedArea := Math_random in
  let* improvedArea := Math_random in
  let* stableArea := Math_random in
  ret (list_to_map
         [ ("transitionIntensity", Num.mul transitionIntensity (num 10));
           ("degradedArea", Num.mul degradedArea (num 1000));
           ("improvedArea", Num.mul improvedArea (num 500));
           ("stableArea", Num.mul stableArea (num 2000)) ]).


(* ===================================================================== *)
(** ** Loading a raster: [getClosestPopulationYear] and [loadTIFF] *)
(* ===================================================================== *)

Definition Math_abs (a : number) : number :=
  match a with
  | Fin x => Fin (Qabs x)
  | PInf | NInf => PInf
  | NaN => NaN
  end.

(** [popYears.reduce(...)] without an initial value: the first year is the
    accumulator and the callback runs over the two others. *)
Definition getClosestPopulationYear (year : number) : number :=
  foldl
    (fun prev curr =>
       if Num.ltb (Math_abs (Num.sub curr year)) (Math_abs (Num.sub prev year))
       then curr else prev)
    (num 2010) [num 2015; num 2020].

(** A number inside a template literal.  Integers below [10^21] in
    magnitude print their decimal digits and the three special values
    their names; the shortest decimal form of any other number is outside
    the model ([None]). *)
Definition numberToString (n : number) : option string :=
  match n with
  | NaN => Some "NaN"
  | PInf => Some "Infinity"
  | NInf => Some "-Infinity"
  | Fin _ =>
      match Num.to_index n with
      | Some z => if (Z.abs z <? 10 ^ 21)%Z then Some (pretty z) else None
      | None => None
      end
  end.

(** The [filePath] that [loadTIFF] fetches. *)
Definition tiffPath (year : number) (dataType : string) : option string :=
  let landCoverPath :=
    (fun y => "/Datasets_Hackathon/Modis_Land_Cover_Data/" +:+ y +:+ "LCT.tif")
      <$> numberToString year in
  if String.eqb dataType "landCover" then landCoverPath
  else if String.eqb dataType "precipitation" then
    (fun y => "/Datasets_Hackathon/Climate_Precipitation_Data/" +:+ y +:+ "R.tif")
      <$> numberToString year
  else if String.eqb dataType "vegetation" then
    (fun y => "/Datasets_Hackathon/MODIS_Gross_Primary_Production_GPP/" +:+ y +:+ "_GP.tif")
      <$> numberToString year
  else if String.eqb dataType "population" then
    let popYear := getClosestPopulationYear year in
    (fun y => "/Datasets_Hackathon/Gridded_Population_Density_Data/Assaba_Pop_"
              +:+ y +:+ ".tif")
      <$> numberToString popYear
  else landCoverPath.

(** What [loadTIFF] resolves to. *)
Record Frame : Type := {
  frame_data : list number;
  frame_width : nat;
  frame_height : nat;
  frame_min : option number;
  frame_max : option number
}.

(** [loadTIFF] from the outcome of fetching and decoding the file: the
    first band with its dimensions, or [None] when any of the awaited steps
    throws. *)
Definition loadTIFF (raster : option (list number * nat * nat)) (dataType : string)
  : Frame :=
  match raster with
  | None =>
      {| frame_data := []; frame_width := 0; frame_height := 0;
         frame_min := None; frame_max := None |}
  | Some (data, width, height) =>
      if String.eqb dataType "precipitation" || String.eqb dataType "vegetation"
         || String.eqb dataType "population" then
        let validData :=
          if String.eqb dataType "vegetation" then
            List.filter (fun val => Num.gtb val (Fin 0) && Num.ltb val (num 3000)) data
          else if String.eqb dataType "population" then
            List.filter (fun val => Num.geb val (Fin 0)) data
          else
            List.filter (fun val => Num.gtb val (Fin 0)) data in
        let min := if (0 <? length validData)%nat then Num.Math_min validData else Fin 0 in
        let max :=
          if (0 <? length validData)%nat then Num.Math_max validData
          else if String.eqb dataType "precipitation" then num 500
          else if String.eqb dataType "vegetation" then num 3000
          else num 500 in
        {| frame_data := data; frame_width := width; frame_height := height;
           frame_min := Some min; frame_max := Some max |}
      else
        {| frame_data := data; frame_width := width; frame_height := height;
           frame_min := None; frame_max := None |}
  end.


(* ===================================================================== *)
(** ** Calibrated rainfall figures: [getAccuratePrecipitationData] *)
(* ===================================================================== *)






(* ===================================================================== *)
(** ** Component state of [MapVisualization]: zoom and active layers *)
(* ===================================================================== *)

(** The updaters passed to [setZoomLevel]. *)
Definition handleZoomIn (prev : number) : number :=
  Num.min2 (Num.add prev (Fin 0.2)) (num 3).

Definition handleZoomOut (prev : number) : number :=
  Num.max2 (Num.sub prev (Fin 0.2)) (Fin 0.5).

Definition handleResetView (prev : number) : number := num 1.

Inductive ZoomButton : Type := ZoomInButton | ZoomOutButton | ResetViewButton.

Definition pressZoom (zoomLevel : number) (button : ZoomButton) : number :=
  match button with
  | ZoomInButton => handleZoomIn zoomLevel
  | ZoomOutButton => handleZoomOut zoomLevel
  | ResetViewButton => handleResetView zoomLevel
  end.

(** The initial [activeLayers]. *)
Definition initialLayers : gmap string bool :=
  list_to_map
    [ ("landCover", true); ("precipitation", false); ("regionBoundaries", false);
      ("districtBoundaries", false); ("roadNetwork", false); ("riverNetwork", false) ].

(** [layers[id]] as a condition: a missing key is [undefined], hence
    falsy. *)
Definition isActive (layers : gmap string bool) (layerId : string) : bool :=
  default false (layers !! layerId).

(** The updater of [handleLayerToggle]. *)
Definition handleLayerToggle (layerId : string) (prev : gmap string bool)
  : gmap string bool :=
  if String.eqb layerId "landCover" || String.eqb layerId "precipitation" then
    <["precipitation" := String.eqb layerId "precipitation"]>
      (<["landCover" := String.eqb layerId "landCover"]> prev)
  else
    <[layerId := negb (isActive prev layerId)]> prev.

(** The updater of the effect that follows the [dataType] property. *)
Definition followDataType (dataType : string) (prev : gmap string bool)
  : gmap string bool :=
  <["population" := String.eqb dataType "population"]>
    (<["vegetation" := String.eqb dataType "vegetation"]>
       (<["precipitation" := String.eqb dataType "precipitation"]>
          (<["landCover" := String.eqb dataType "landCover"]> prev))).

Inductive LayerEvent : Type :=
| Toggled (layerId : string)
| DataTypeSet (dataType : string).

Definition updateLayers (layers : gmap string bool) (event : LayerEvent)
  : gmap string bool :=
  match event with
  | Toggled layerId => handleLayerToggle layerId layers
  | DataTypeSet dataType => followDataType dataType layers
  end.



(* ===================================================================== *)
(** ** Drawing a raster layer and the year transition *)
(* ===================================================================== *)

(** [dataForType[year]]: the frames of a layer are stored under the
    integer years they were loaded for. *)
Definition frameAt (frames : gmap Z Frame) (year : number) : option Frame :=
  match Num.to_index year with
  | Some z => frames !! z
  | None => None
  end.

(** What [renderLayer] does: the outcome of [renderTIFFToCanvas] when it is
    reached, and the statistics handed to [setCurrentStats] if any. *)
Record LayerOutcome : Type := {
  drawn : option RenderResult;
  newStats : option (gmap string number)
}.

Definition renderLayer (mapData : gmap string (gmap Z Frame)) (query : TemporalQuery)
    (layerType : string) : Rand LayerOutcome :=
  let dataForType := default ∅ (mapData !! layerType) in
  let prevYearData := frameAt dataForType (prevYear query) in
  let nextYearData := frameAt dataForType (nextYear query) in
  match prevYearData with
  | None => ret {| drawn := None; newStats := None |}
  | Some prevYearData =>
      if (length (frame_data prevYearData) =? 0)%nat then
        ret {| drawn := None; newStats := None |}
      else
        let* renderData :=
          match nextYearData with
          | Some nextYearData =>
              if negb (Num.strict_eq (prevYear query) (nextYear query)) then
                interpolateData (frame_data prevYearData) (frame_data nextYearData)
                  (progress query)
              else ret (frame_data prevYearData)
          | None => ret (frame_data prevYearData)
          end in
        let result :=
          renderTIFFToCanvas renderData (frame_width prevYearData)
            (frame_height prevYearData)
            {| opt_opacity := Some (Fin 1); opt_dataType := Some layerType;
               opt_min := Some (Fin 0); opt_max := Some (num 500);
               opt_smoothing := Some (String.eqb layerType "precipitation") |} in
        match result with
        | Threw => ret {| drawn := Some Threw; newStats := None |}
        | _ =>
            ret {| drawn := Some result;
                   newStats :=
                     if String.eqb layerType "landCover" then
                       Some (calculateLandCoverStats renderData)
                     else if String.eqb layerType "precipitation" then
                       Some (calculatePrecipitationStats renderData None)
                     else None |}
        end
  end.

(** [animationProgress] at a frame callback: the elapsed share of the 500 ms
    of the transition, capped at 1. *)
Definition animationProgress (time startTime : number) : number :=
  Num.min2 (Num.div (Num.sub time startTime) (num 500)) (Fin 1).

(** The [transitionData] of one frame callback, from cell [index] on;
    [endInterpolatedData[index]] is [undefined] ([None]) past the end of
    that array. *)
Fixpoint transitionCells (startInterpolatedData : list number) (index : nat)
    (endInterpolatedData : list number) (animationProgress : number)
  : Rand (list (option number)) :=
  match startInterpolatedData with
  | [] => ret []
  | startValue :: rest =>
      let* cell :=
        if Num.geb animationProgress (Fin 1) then ret (endInterpolatedData !! index)
        else
          let* r := Math_random in
          ret (if Num.ltb r animationProgress then endInterpolatedData !! index
               else Some startValue) in
      let* cells := transitionCells rest (S index) endInterpolatedData animationProgress in
      ret (cell :: cells)
  end.

Definition transitionData (startInterpolatedData endInterpolatedData : list number)
    (time startTime : number) : Rand (list (option number)) :=
  transitionCells startInterpolatedData 0 endInterpolatedData
    (animationProgress time startTime).

(** Whether the callback asks for another animation frame. *)
Definition requestsNextFrame (time startTime : number) : bool :=
  Num.ltb (animationProgress time startTime) (Fin 1).

(* ===================================================================== *)
(** ** Specification-side vocabulary *)
(* ===================================================================== *)

Local Open Scope Q_scope.

(** [year] lies within the range spanned by [years]. *)
Definition withinRange (years : list number) (year : number) : bool :=
  existsb (fun e => Num.leb e year) years && existsb (fun e => Num.geb e year) years.

(** [b] is the greatest member of [years] that is at most [y]. *)
Definition greatest_at_most (years : list number) (y b : Q) : Prop :=
  (exists e, In (Fin e) years /\ e == b) /\ b <= y /\
  forall e, In (Fin e) years -> e <= y -> e <= b.

(** [a] is the least member of [years] that is at least [y]. *)
Definition least_at_least (years : list number) (y a : Q) : Prop :=
  (exists e, In (Fin e) years /\ e == a) /\ y <= a /\
  forall e, In (Fin e) years -> y <= e -> a <= e.

(** A generator whose every draw is one half. *)
Definition halfDraws : Rng := {| draws := fun _ => 1 # 2; cursor := 0 |}.

(** A generator whose draws climb towards one: 0, 1/2, 2/3, 3/4, ... *)
Definition climbingDraws : Rng :=
  {| draws := fun n => inject_Z (Z.of_nat n) / inject_Z (Z.of_nat n + 1); cursor := 0 |}.

(** The colour branch of [renderTIFFToCanvas] reached by [dataType]: the
    land-cover branch is the final [else]. *)
Definition isLandCoverBranch (dataType : string) : bool :=
  negb (String.eqb dataType "precipitation")
  && negb (String.eqb dataType "vegetation")
  && negb (String.eqb dataType "population").

(** The four bytes of cell [i] in a pixel buffer. *)
Definition pixelAt (pixels : list Z) (i : nat) : option (Z * Z * Z * Z) :=
  match pixels !! (i * 4)%nat, pixels !! (i * 4 + 1)%nat,
        pixels !! (i * 4 + 2)%nat, pixels !! (i * 4 + 3)%nat with
  | Some r, Some g, Some b, Some a => Some (r, g, b, a)
  | _, _, _, _ => None
  end.

(** [c] is one of the colours of [landCoverColors]. *)
Definition tableColor (c : string) : Prop :=
  exists key : string, landCoverColors !! key = Some c.

(** The three continuous colour functions, each with its scale. *)
Inductive ContinuousKind : Type := Precipitation | Vegetation | Population.


Definition colorOf (kind : ContinuousKind) (value min max : number) : option string :=
  match kind with
  | Precipitation => getPrecipitationColor value min max
  | Vegetation => getVegetationColor value min max
  | Population => getPopulationDensityColor value min max
  end.


(** The sum of an array of rationals, folded from 0 as [reduce] does. *)
Definition Qsum (l : list Q) : Q := foldl Qplus 0 l.

(** The cells the code keeps in [calculatePopulationStats]: the positive
    ones. *)
Definition positiveCells (data : list Q) : list Q :=
  List.filter (fun v => negb (Qle_bool v 0)) data.

(** The population filter as the specification words it (only the cells
    below 0 are excluded) and the average density it would give. *)
Definition spec_populationValid (data : list Q) : list Q :=
  List.filter (fun v => Qle_bool 0 v) data.

Definition spec_averageDensity (data : list Q) : Q :=
  Qsum (spec_populationValid data)
  / inject_Z (Z.of_nat (length (spec_populationValid data))).

(** The claim that zero cells count: the average density of the record is
    the average over the cells that are not negative. *)
Definition zero_cells_counted (data : list Q) : Prop :=
  exists q : Q,
    calculatePopulationStats (map Fin data) !! "averageDensity"%string = Some (Fin q) /\
    q == spec_averageDensity data.





(** The data types for which [loadTIFF] computes a value range. *)
Definition isContinuous (dataType : string) : bool :=
  String.eqb dataType "precipitation" || String.eqb dataType "vegetation"
  || String.eqb dataType "population".

(** The cells [loadTIFF] counts as valid data for a continuous data type. *)
Definition validCell (dataType : string) (v : Q) : bool :=
  if String.eqb dataType "vegetation" then negb (Qle_bool v 0) && negb (Qle_bool 3000 v)
  else if String.eqb dataType "population" then Qle_bool 0 v
  else negb (Qle_bool v 0).

(** The range [loadTIFF] reports when no cell is valid. *)
Definition defaultMax (dataType : string) : Q :=
  if String.eqb dataType "vegetation" then 3000 else 500.

(** The alpha byte of a pixel. *)
Definition alphaOf (pixel : Z * Z * Z * Z) : Z := pixel.2.

(** The colours [renderTIFFToCanvas] can choose from: the land-cover table,
    the three scales and the transparent colour. *)
Definition paletteColors : list string :=
  (map_to_list landCoverColors).*2 ++ precipitationColorScale
  ++ vegetationProductivityScale ++ populationDensityScale ++ [transparent].

(** The class codes of [landCoverClasses]. *)
Definition classCodes : list Z := [7; 8; 9; 10; 11; 12; 13; 14; 15; 16; 0]%Z.

(** The number of cells holding the integer [k]. *)
Definition cellsOfClass (k : Z) (data : list number) : nat :=
  length (List.filter (fun v => bool_decide (Num.to_index v = Some k)) data).






(** The zoom level the component starts with. *)
Definition initialZoom : number := num 1.

(** The two rasters of the layer control are never active together. *)
Definition oneRasterAtMost (layers : gmap string bool) : Prop :=
  isActive layers "landCover" && isActive layers "precipitation" = false.


(** What [renderLayer] does with the cells it has decided to show for a
    frame: draw them with the fixed range 0 .. 500 and opacity 1, and
    publish statistics for land cover and precipitation unless the drawing
    threw. *)
Definition showCells (data : list number) (frame : Frame) (layerType : string)
  : LayerOutcome :=
  let result :=
    renderTIFFToCanvas data (frame_width frame) (frame_height frame)
      {| opt_opacity := Some (Fin 1); opt_dataType := Some layerType;
         opt_min := Some (Fin 0); opt_max := Some (num 500);
         opt_smoothing := Some (String.eqb layerType "precipitation") |} in
  match result with
  | Threw => {| drawn := Some Threw; newStats := None |}
  | _ =>
      {| drawn := Some result;
         newStats :=
           if String.eqb layerType "landCover" then Some (calculateLandCoverStats data)
           else if String.eqb layerType "precipitation" then
             Some (calculatePrecipitationStats data None)
           else None |}
  end.

(** The frame of a layer for a year is not loaded, or is the empty frame of
    a failed load. *)
Definition frameMissing (mapData : gmap string (gmap Z Frame)) (layerType : string)
    (year : number) : Prop :=
  match frameAt (default ∅ (mapData !! layerType)) year with
  | Some frame => frame_data frame = []
  | None => True
  end.

(** The generator after [n] more draws. *)
Definition advanced (g : Rng) (n : nat) : Rng :=
  {| draws := draws g; cursor := (cursor g + n)%nat |}.

(** The number of indices at which two arrays hold different cells. *)
Definition differingCells (a b : list number) : nat :=
  length (List.filter (fun '(s, e) => negb (Num.strict_eq s e)) (zip a b)).

(** A colour written [#rrggbb] with the six given characters. *)
Definition hexColor (r1 r2 g1 g2 b1 b2 : Ascii.ascii) : string :=
  String "#"%char
    (String r1 (String r2 (String g1 (String g2 (String b1 (String b2 EmptyString)))))).

(* ===================================================================== *)
(** ** Facts about numbers *)
(* ===================================================================== *)

Section NumberFacts.

Implicit Types a b x y : Q.

Lemma ltb_Fin a b : Num.ltb (Fin a) (Fin b) = true <-> a < b.
Proof.
  unfold Num.ltb; simpl. rewrite Qlt_alt.
  destruct (a ?= b); split; congruence.
Qed.

Lemma gtb_Fin a b : Num.gtb (Fin a) (Fin b) = true <-> b < a.
Proof.
  unfold Num.gtb; simpl. rewrite Qgt_alt.
  destruct (a ?= b); split; congruence.
Qed.

Lemma leb_Fin a b : Num.leb (Fin a) (Fin b) = true <-> a <= b.
Proof.
  unfold Num.leb; simpl. rewrite Qle_alt.
  destruct (a ?= b); split; congruence.
Qed.

Lemma geb_Fin a b : Num.geb (Fin a) (Fin b) = true <-> b <= a.
Proof.
  unfold Num.geb; simpl. rewrite Qge_alt.
  destruct (a ?= b); split; congruence.
Qed.

Lemma strict_eq_Fin a b : Num.strict_eq (Fin a) (Fin b) = true <-> a == b.
Proof.
  unfold Num.strict_eq; simpl. rewrite Qeq_alt.
  destruct (a ?= b); split; congruence.
Qed.

Lemma ltb_Fin_false a b : Num.ltb (Fin a) (Fin b) = false <-> b <= a.
Proof.
  rewrite <- not_true_iff_false, ltb_Fin. split; intros; lra.
Qed.

Lemma gtb_Fin_false a b : Num.gtb (Fin a) (Fin b) = false <-> a <= b.
Proof.
  rewrite <- not_true_iff_false, gtb_Fin. split; intros; lra.
Qed.

Lemma max2_Fin a b :
  Num.max2 (Fin a) (Fin b) = Fin (if Num.ltb (Fin a) (Fin b) then b else a).
Proof. simpl. now destruct (Num.ltb (Fin a) (Fin b)). Qed.

Lemma min2_Fin a b :
  Num.min2 (Fin a) (Fin b) = Fin (if Num.ltb (Fin b) (Fin a) then b else a).
Proof. simpl. now destruct (Num.ltb (Fin b) (Fin a)). Qed.

(** [Math.max] of a non-empty array of finite numbers is its greatest
    member. *)
Lemma Math_max_Fin (l : list Q) :
  l <> [] ->
  exists m, Num.Math_max (map Fin l) = Fin m /\ In m l /\ forall e, In e l -> e <= m.
Proof.
  induction l as [|x l IH]; [congruence|]. intros _.
  destruct l as [|x' l].
  - exists x. simpl. split; [reflexivity|]. split; [now left|].
    intros e [->|[]]. lra.
  - destruct IH as (m & Hm & Hin & Hub); [congruence|].
    change (Num.Math_max (map Fin (x :: x' :: l)))
      with (Num.max2 (Fin x) (Num.Math_max (map Fin (x' :: l)))).
    rewrite Hm, max2_Fin.
    destruct (Num.ltb (Fin x) (Fin m)) eqn:E.
    + apply ltb_Fin in E. exists m. split; [reflexivity|]. split; [now right|].
      intros e [->|He]; [lra|now apply Hub].
    + apply ltb_Fin_false in E. exists x. split; [reflexivity|]. split; [now left|].
      intros e [->|He]; [lra|]. specialize (Hub e He). lra.
Qed.

Lemma Math_min_Fin (l : list Q) :
  l <> [] ->
  exists m, Num.Math_min (map Fin l) = Fin m /\ In m l /\ forall e, In e l -> m <= e.
Proof.
  induction l as [|x l IH]; [congruence|]. intros _.
  destruct l as [|x' l].
  - exists x. simpl. split; [reflexivity|]. split; [now left|].
    intros e [->|[]]. lra.
  - destruct IH as (m & Hm & Hin & Hlb); [congruence|].
    change (Num.Math_min (map Fin (x :: x' :: l)))
      with (Num.min2 (Fin x) (Num.Math_min (map Fin (x' :: l)))).
    rewrite Hm, min2_Fin.
    destruct (Num.ltb (Fin m) (Fin x)) eqn:E.
    + apply ltb_Fin in E. exists m. split; [reflexivity|]. split; [now right|].
      intros e [->|He]; [lra|now apply Hlb].
    + apply ltb_Fin_false in E. exists x. split; [reflexivity|]. split; [now left|].
      intros e [->|He]; [lra|]. specialize (Hlb e He). lra.
Qed.

Lemma filter_map_Fin (f : number -> bool) (l : list Q) :
  List.filter f (map Fin l) = map Fin (List.filter (fun q => f (Fin q)) l).
Proof.
  induction l as [|x l IH]; [reflexivity|]. simpl.
  destruct (f (Fin x)); simpl; now rewrite IH.
Qed.

End NumberFacts.

(* ===================================================================== *)
(** ** The year bracket *)
(* ===================================================================== *)

Lemma getAvailableYears_finite (dataType : string) :
  exists ys : list Q, getAvailableYears dataType = map Fin ys /\ ys <> [].
Proof.
  unfold getAvailableYears. destruct (String.eqb dataType "population").
  - exists (map inject_Z [2010; 2015; 2020]%Z). split; [reflexivity|discriminate].
  - exists (map (fun i : nat => inject_Z (2010 + Z.of_nat i)) (seq 0 14)).
    split; [reflexivity|discriminate].
Qed.

Lemma filter_all {A : Type} (f : A -> bool) (l : list A) :
  (forall x, In x l -> f x = true) -> List.filter f l = l.
Proof.
  induction l as [|x l IH]; intros H; [reflexivity|]. simpl.
  rewrite (H x) by now left. f_equal. apply IH. intros y Hy. apply H. now right.
Qed.

Lemma filter_none {A : Type} (f : A -> bool) (l : list A) :
  (forall x, In x l -> f x = false) -> List.filter f l = [].
Proof.
  induction l as [|x l IH]; intros H; [reflexivity|]. simpl.
  rewrite (H x) by now left. apply IH. intros y Hy. apply H. now right.
Qed.

Lemma includes_Fin (ys : list Q) (y : Q) :
  includes (map Fin ys) (Fin y) = true <-> exists e, In e ys /\ e == y.
Proof.
  unfold includes. rewrite existsb_exists. split.
  - intros (x & Hx & Hsame). apply in_map_iff in Hx as (e & <- & He).
    exists e. split; [assumption|]. now apply strict_eq_Fin.
  - intros (e & He & Heq). exists (Fin e). split; [now apply in_map|].
    now apply strict_eq_Fin.
Qed.

Lemma In_Fin_map (ys : list Q) (e : Q) : In (Fin e) (map Fin ys) <-> In e ys.
Proof.
  rewrite in_map_iff. split.
  - intros (x & [= ->] & Hx). assumption.
  - intros He. now exists e.
Qed.

Lemma resolveTemporalQuery_within (ys : list Q) (y : Q) :
  withinRange (map Fin ys) (Fin y) = true ->
  exists b a p : Q,
    resolveTemporalQuery (Fin y) (map Fin ys)
    = {| prevYear := Fin b; nextYear := Fin a; progress := Fin p |} /\
    greatest_at_most (map Fin ys) y b /\
    least_at_least (map Fin ys) y a /\
    (b == a -> p == 0) /\
    (~ b == a -> p == (y - b) / (a - b)).
Proof.
  unfold withinRange. rewrite andb_true_iff, !existsb_exists.
  intros [(xlo & Hlo & Hlo_le) (xhi & Hhi & Hhi_ge)].
  apply in_map_iff in Hlo as (lo & <- & Hlo).
  apply in_map_iff in Hhi as (hi & <- & Hhi).
  apply leb_Fin in Hlo_le. apply geb_Fin in Hhi_ge.
  unfold resolveTemporalQuery.
  destruct (includes (map Fin ys) (Fin y)) eqn:Hinc.
  - apply includes_Fin in Hinc as (e & He & Heq).
    exists y, y, 0. split; [reflexivity|].
    assert (Hmem : exists e0, In (Fin e0) (map Fin ys) /\ e0 == y).
    { exists e. split; [now apply In_Fin_map | assumption]. }
    split; [|split; [|split]].
    + split; [exact Hmem|]. split; [lra|]. intros; assumption.
    + split; [exact Hmem|]. split; [lra|]. intros; assumption.
    + intros _. reflexivity.
    + intros Hne. exfalso. apply Hne. reflexivity.
  - assert (Hnot : forall e, In e ys -> ~ e == y).
    { intros e He Heq. apply not_true_iff_false in Hinc. apply Hinc.
      apply includes_Fin. now exists e. }
    rewrite !filter_map_Fin.
    destruct (Math_max_Fin (List.filter (fun q => Num.leb (Fin q) (Fin y)) ys))
      as (b & -> & Hb & Hbmax).
    { intros Hnil. assert (Hin : In lo (List.filter (fun q => Num.leb (Fin q) (Fin y)) ys)).
      { apply filter_In. split; [assumption | now apply leb_Fin]. }
      rewrite Hnil in Hin. destruct Hin. }
    destruct (Math_min_Fin (List.filter (fun q => Num.geb (Fin q) (Fin y)) ys))
      as (a & -> & Ha & Hamin).
    { intros Hnil. assert (Hin : In hi (List.filter (fun q => Num.geb (Fin q) (Fin y)) ys)).
      { apply filter_In. split; [assumption | now apply geb_Fin]. }
      rewrite Hnil in Hin. destruct Hin. }
    apply filter_In in Hb as [Hb Hby]. apply leb_Fin in Hby.
    apply filter_In in Ha as [Ha Hay]. apply geb_Fin in Hay.
    assert (Hlt_b : b < y).
    { destruct (Qlt_le_dec b y) as [|Hge]; [assumption|].
      exfalso. apply (Hnot b Hb). lra. }
    assert (Hlt_a : y < a).
    { destruct (Qlt_le_dec y a) as [|Hge]; [assumption|].
      exfalso. apply (Hnot a Ha). lra. }
    change (Num.sub (Fin a) (Fin b)) with (Fin (a + - b)).
    change (Num.sub (Fin y) (Fin b)) with (Fin (y + - b)).
    assert (Hpos : Num.gtb (Fin (a + - b)) (Fin 0) = true) by (apply gtb_Fin; lra).
    rewrite Hpos. unfold Num.div.
    destruct (Qeq_bool (a + - b) 0) eqn:Hz.
    { apply Qeq_bool_iff in Hz. lra. }
    exists b, a, ((y + - b) / (a + - b)). split; [reflexivity|].
    split; [|split; [|split]].
    + split; [|split; [lra|]].
      * exists b. split; [now apply In_Fin_map | reflexivity].
      * intros e He Hle. apply Hbmax. apply filter_In.
        split; [now apply In_Fin_map | now apply leb_Fin].
    + split; [|split; [lra|]].
      * exists a. split; [now apply In_Fin_map | reflexivity].
      * intros e He Hle. apply Hamin. apply filter_In.
        split; [now apply In_Fin_map | now apply geb_Fin].
    + intros Heq. lra.
    + intros _. reflexivity.
Qed.

(** Past the last available year nothing is clamped: [nextYear] is
    [Infinity] for every such year, of every dataset. *)
Lemma yearBracket_above_range (dataType : string) (y : Q) :
  (forall e, In (Fin e) (getAvailableYears dataType) -> e < y) ->
  exists b : Q,
    yearBracket (Fin y) dataType
    = {| prevYear := Fin b; nextYear := PInf; progress := Fin 0 |} /\
    In (Fin b) (getAvailableYears dataType) /\
    forall e, In (Fin e) (getAvailableYears dataType) -> e <= b.
Proof.
  unfold yearBracket.
  destruct (getAvailableYears_finite dataType) as (ys & -> & Hne).
  intros Habove. unfold resolveTemporalQuery.
  assert (Hinc : includes (map Fin ys) (Fin y) = false).
  { apply not_true_iff_false. intros H. apply includes_Fin in H as (e & He & Heq).
    apply In_Fin_map in He. specialize (Habove e He). lra. }
  rewrite Hinc, !filter_map_Fin.
  rewrite (filter_all (fun q => Num.leb (Fin q) (Fin y)) ys).
  2:{ intros e He. apply leb_Fin. apply In_Fin_map in He.
      specialize (Habove e He). lra. }
  rewrite (filter_none (fun q => Num.geb (Fin q) (Fin y)) ys).
  2:{ intros e He. apply not_true_iff_false. intros H. apply geb_Fin in H.
      apply In_Fin_map in He. specialize (Habove e He). lra. }
  destruct (Math_max_Fin ys Hne) as (b & -> & Hb & Hmax).
  exists b. split; [reflexivity|]. split; [now apply In_Fin_map|].
  intros e He. apply Hmax. now apply In_Fin_map.
Qed.

(** Before the first available year [prevYear] is [-Infinity] and the
    progress is [NaN]. *)
Lemma yearBracket_below_range (dataType : string) (y : Q) :
  (forall e, In (Fin e) (getAvailableYears dataType) -> y < e) ->
  exists a : Q,
    yearBracket (Fin y) dataType
    = {| prevYear := NInf; nextYear := Fin a; progress := NaN |} /\
    In (Fin a) (getAvailableYears dataType) /\
    forall e, In (Fin e) (getAvailableYears dataType) -> a <= e.
Proof.
  unfold yearBracket.
  destruct (getAvailableYears_finite dataType) as (ys & -> & Hne).
  intros Hbelow. unfold resolveTemporalQuery.
  assert (Hinc : includes (map Fin ys) (Fin y) = false).
  { apply not_true_iff_false. intros H. apply includes_Fin in H as (e & He & Heq).
    apply In_Fin_map in He. specialize (Hbelow e He). lra. }
  rewrite Hinc, !filter_map_Fin.
  rewrite (filter_none (fun q => Num.leb (Fin q) (Fin y)) ys).
  2:{ intros e He. apply not_true_iff_false. intros H. apply leb_Fin in H.
      apply In_Fin_map in He. specialize (Hbelow e He). lra. }
  rewrite (filter_all (fun q => Num.geb (Fin q) (Fin y)) ys).
  2:{ intros e He. apply geb_Fin. apply In_Fin_map in He.
      specialize (Hbelow e He). lra. }
  destruct (Math_min_Fin ys Hne) as (a & -> & Ha & Hmin).
  exists a. split; [reflexivity|]. split; [now apply In_Fin_map|].
  intros e He. apply Hmin. now apply In_Fin_map.
Qed.

(** C1, as the code runs it.  A year past the last available one leaves
    no candidate for [nextYear]: [Math.min()] of the empty spread is
    [Infinity], so the bracket of 2023 over the population years is
    2020 .. Infinity with progress 0, not 2020 .. 2020.  A year before the
    first one gives [-Infinity] .. 2010 and the progress [NaN]. *)
Theorem yearBracket_outside_range_unclamped :
  yearBracket (num 2023) "population"
  = {| prevYear := num 2020; nextYear := PInf; progress := Fin 0 |} /\
  yearBracket (num 2005) "population"
  = {| prevYear := NInf; nextYear := num 2010; progress := NaN |}.
Proof. split; reflexivity. Qed.

(** C6.  For a year within the range of the available years of a dataset,
    [prevYear] is the greatest available year at most the requested one,
    [nextYear] the least available year at least the requested one, and
    [progress] is 0 when the two coincide and
    [(year - prevYear) / (nextYear - prevYear)] otherwise; 2013 over the
    population years resolves to 2010, 2015 and 0.6. *)
Theorem yearBracket_within_range :
  (forall (dataType : string) (y : Q),
     withinRange (getAvailableYears dataType) (Fin y) = true ->
     exists b a p : Q,
       yearBracket (Fin y) dataType
       = {| prevYear := Fin b; nextYear := Fin a; progress := Fin p |} /\
       greatest_at_most (getAvailableYears dataType) y b /\
       least_at_least (getAvailableYears dataType) y a /\
       (b == a -> p == 0) /\
       (~ b == a -> p == (y - b) / (a - b))) /\
  (exists p : Q,
     yearBracket (num 2013) "population"
     = {| prevYear := num 2010; nextYear := num 2015; progress := Fin p |} /\
     p == 0.6).
Proof.
  split.
  - intros dataType y Hin. unfold yearBracket.
    destruct (getAvailableYears_finite dataType) as (ys & Hys & _).
    rewrite Hys in *. now apply resolveTemporalQuery_within.
  - exists (3 # 5). split; reflexivity.
Qed.

Lemma yearBracket_within_range_witness :
  exists b a p : Q,
    yearBracket (Fin 2012.5) "landCover"
    = {| prevYear := Fin b; nextYear := Fin a; progress := Fin p |} /\
    greatest_at_most (getAvailableYears "landCover") 2012.5 b /\
    least_at_least (getAvailableYears "landCover") 2012.5 a /\
    (b == a -> p == 0) /\
    (~ b == a -> p == (2012.5 - b) / (a - b)).
Proof.
  apply (proj1 yearBracket_within_range "landCover" 2012.5).
  reflexivity.
Defined.

(* ===================================================================== *)
(** ** Temporal interpolation *)
(* ===================================================================== *)

Section Interpolation.

Implicit Types (a b : list number) (p s e : number) (g : Rng).

Lemma blendCells_cons s a e b p g :
  blendCells (s :: a) (e :: b) p g
  = ((blendCell s e p g).1 :: (blendCells a b p (blendCell s e p g).2).1,
     (blendCells a b p (blendCell s e p g).2).2).
Proof.
  simpl. unfold bind, ret.
  destruct (blendCell s e p g) as [cell g1]. simpl.
  now destruct (blendCells a b p g1).
Qed.

(** A cell of the map is the start cell or the end cell; it is the start
    cell when the two are equal, and otherwise the outcome of comparing
    one draw of the generator with the progress. *)
Lemma blendCell_cases s e p g :
  let c := (blendCell s e p g).1 in
  draws (blendCell s e p g).2 = draws g /\
  (Num.strict_eq s e = true -> c = s) /\
  (Num.strict_eq s e = false ->
   exists n, c = if Num.ltb (Fin (draws g n)) p then e else s).
Proof.
  unfold blendCell, bind, ret, Math_random.
  destruct (Num.strict_eq s e); simpl.
  - split; [reflexivity|]. split; [reflexivity|discriminate].
  - split; [reflexivity|]. split; [discriminate|]. intros _. now exists (cursor g).
Qed.

Lemma blendCell_choice s e p g :
  (blendCell s e p g).1 = s \/ (blendCell s e p g).1 = e.
Proof.
  destruct (blendCell_cases s e p g) as (_ & Hsame & Hdiff).
  destruct (Num.strict_eq s e).
  - left. now apply Hsame.
  - destruct Hdiff as (n & ->); [reflexivity|].
    destruct (Num.ltb _ p); [now right | now left].
Qed.

Lemma blendCells_draws a : forall b p g,
  draws (blendCells a b p g).2 = draws g.
Proof.
  induction a as [|s a IH]; intros [|e b] p g; try reflexivity.
  rewrite blendCells_cons. simpl. rewrite IH.
  apply blendCell_cases.
Qed.

Lemma blendCells_length a : forall b p g,
  length a = length b -> length (blendCells a b p g).1 = length a.
Proof.
  induction a as [|s a IH]; intros [|e b] p g Hlen; try discriminate; [reflexivity|].
  rewrite blendCells_cons. simpl. f_equal. apply IH. now injection Hlen.
Qed.

(** The cell at every index of the map. *)
Lemma blendCells_lookup a : forall b p g i s e,
  a !! i = Some s -> b !! i = Some e ->
  exists c,
    (blendCells a b p g).1 !! i = Some c /\
    (c = s \/ c = e) /\
    (Num.strict_eq s e = true -> c = s) /\
    (Num.strict_eq s e = false ->
     exists n, c = if Num.ltb (Fin (draws g n)) p then e else s).
Proof.
  induction a as [|s0 a IH]; intros [|e0 b] p g i s e Ha Hb; try discriminate.
  rewrite blendCells_cons. destruct i as [|i]; simpl in *.
  - injection Ha as ->. injection Hb as ->.
    exists (blendCell s e p g).1. split; [reflexivity|].
    split; [apply blendCell_choice|]. apply blendCell_cases.
  - destruct (IH b p (blendCell s0 e0 p g).2 i s e Ha Hb) as (c & Hc & Hch & Hsame & Hdiff).
    exists c. split; [assumption|]. split; [assumption|]. split; [assumption|].
    intros Hne. destruct (Hdiff Hne) as (n & Hn). exists n.
    destruct (blendCell_cases s0 e0 p g) as (Hd & _). now rewrite <- Hd.
Qed.

Lemma interpolateData_blend a b p g :
  length a = length b -> a <> [] ->
  interpolateData a b p g = blendCells a b p g.
Proof.
  intros Hlen Hne. unfold interpolateData.
  rewrite Hlen, Nat.eqb_refl. simpl.
  destruct b; [destruct a; [congruence|discriminate]|reflexivity].
Qed.

Lemma strict_eq_num_eq s e : Num.strict_eq s e = true -> num_eq s e.
Proof.
  destruct s, e; simpl; try discriminate; try exact (fun _ => I).
  apply strict_eq_Fin.
Qed.

Lemma num_eq_refl s : num_eq s s.
Proof. destruct s; simpl; [reflexivity|exact I..]. Qed.

Lemma lookup_same_length a b i s :
  length a = length b -> a !! i = Some s -> exists e, b !! i = Some e.
Proof.
  intros Hlen Ha. apply lookup_lt_Some in Ha. rewrite Hlen in Ha.
  now apply lookup_lt_is_Some_2 in Ha as [e He]; exists e.
Qed.

End Interpolation.

(** C7.  With draws in [[0, 1)], progress 1 yields the end array at every
    index and progress 0 yields the start array at every index.  At an index
    where the two cells are equal the start cell is kept, which is the same
    number as the end cell, so the comparison with the end array is
    numeric. *)
Theorem interpolateData_endpoints :
  forall (a b : list number) (g : Rng),
    length a = length b -> a <> [] -> unit_draws g ->
    Forall2 num_eq (interpolateData a b (Fin 1) g).1 b /\
    (interpolateData a b (Fin 0) g).1 = a.
Proof.
  intros a b g Hlen Hne Hunit.
  rewrite !interpolateData_blend by assumption. split.
  - apply Forall2_same_length_lookup. split.
    + now rewrite blendCells_length.
    + intros i x y Hx Hy.
      assert (Hi : (i < length a)%nat).
      { rewrite Hlen. now apply lookup_lt_Some in Hy. }
      apply lookup_lt_is_Some_2 in Hi as [s Hs].
      destruct (blendCells_lookup a b (Fin 1) g i s y Hs Hy)
        as (c & Hc & _ & Hsame & Hdiff).
      rewrite Hx in Hc. injection Hc as <-.
      destruct (Num.strict_eq s y) eqn:E.
      * rewrite (Hsame eq_refl). now apply strict_eq_num_eq.
      * destruct (Hdiff eq_refl) as (n & ->).
        assert (Hlt : Num.ltb (Fin (draws g n)) (Fin 1) = true)
          by (apply ltb_Fin, Hunit).
        rewrite Hlt. apply num_eq_refl.
  - apply (list_eq_same_length _ _ (length a)); [reflexivity| |].
    + now apply blendCells_length.
    + intros i x y Hi Hx Hy.
      destruct (lookup_same_length a b i y Hlen Hy) as (e & He).
      destruct (blendCells_lookup a b (Fin 0) g i y e Hy He)
        as (c & Hc & _ & Hsame & Hdiff).
      rewrite Hx in Hc. injection Hc as <-.
      destruct (Num.strict_eq y e) eqn:E.
      * now apply Hsame.
      * destruct (Hdiff eq_refl) as (n & ->).
        assert (Hge : Num.ltb (Fin (draws g n)) (Fin 0) = false)
          by (apply ltb_Fin_false, Hunit).
        now rewrite Hge.
Qed.

Lemma interpolateData_endpoints_witness :
  Forall2 num_eq
    (interpolateData [num 7; num 8; num 9] [num 7; num 12; num 13] (Fin 1) halfDraws).1
    [num 7; num 12; num 13] /\
  (interpolateData [num 7; num 8; num 9] [num 7; num 12; num 13] (Fin 0) halfDraws).1
  = [num 7; num 8; num 9].
Proof.
  apply (interpolateData_endpoints
           [num 7; num 8; num 9] [num 7; num 12; num 13] halfDraws).
  - reflexivity.
  - discriminate.
  - intros n. simpl. lra.
Defined.

(** C8.  At an index where the start cell equals the end cell the result is
    that cell, whatever the progress and the draws; hence interpolating an
    array with itself returns it, as for [[7, 7, 9]] at progress 0.5. *)
Theorem interpolateData_equal_cells :
  (forall (a b : list number) (p : number) (g : Rng) (i : nat) (s e : number),
     length a = length b ->
     a !! i = Some s -> b !! i = Some e -> Num.strict_eq s e = true ->
     (interpolateData a b p g).1 !! i = Some s) /\
  (forall (a : list number) (p : number) (g : Rng),
     (interpolateData a a p g).1 = a) /\
  (forall g : Rng,
     (interpolateData [num 7; num 7; num 9] [num 7; num 7; num 9] (Fin 0.5) g).1
     = [num 7; num 7; num 9]).
Proof.
  assert (Hself : forall (a : list number) (p : number) (g : Rng),
             (interpolateData a a p g).1 = a).
  { intros a p g. destruct a as [|s0 a0]; [reflexivity|].
    rewrite interpolateData_blend; [|reflexivity|discriminate].
    set (a := s0 :: a0).
    apply (list_eq_same_length _ _ (length a)); [reflexivity| |].
    - now apply blendCells_length.
    - intros i x y Hi Hx Hy.
      destruct (blendCells_lookup a a p g i y y Hy Hy) as (c & Hc & Hch & _).
      rewrite Hx in Hc. injection Hc as <-. now destruct Hch. }
  split; [|split; [exact Hself | intros g; apply Hself]].
  intros a b p g i s e Hlen Ha Hb Heq.
  assert (Hne : a <> []) by (intros ->; discriminate).
  rewrite interpolateData_blend by assumption.
  destruct (blendCells_lookup a b p g i s e Ha Hb) as (c & Hc & _ & Hsame & _).
  now rewrite Hc, (Hsame Heq).
Qed.

Lemma interpolateData_equal_cells_witness :
  (interpolateData [num 7; num 8] [num 7; num 12] (Fin 0.5) halfDraws).1 !! 0%nat
  = Some (num 7).
Proof.
  apply (proj1 interpolateData_equal_cells
           [num 7; num 8] [num 7; num 12] (Fin 0.5) halfDraws 0%nat (num 7) (num 7));
    reflexivity.
Defined.

(** C9.  When the two arrays differ in length, or one of them is empty,
    [interpolateData] returns the end array as it is, for every progress,
    and makes no draw. *)
Theorem interpolateData_shape_mismatch :
  forall (a b : list number) (p : number) (g : Rng),
    length a <> length b \/ a = [] \/ b = [] ->
    interpolateData a b p g = (b, g).
Proof.
  intros a b p g H. unfold interpolateData.
  destruct (Nat.eqb_spec (length a) (length b)) as [Hlen|Hlen]; [|reflexivity].
  simpl. destruct H as [H|[->| ->]]; [contradiction|reflexivity|].
  destruct a; [reflexivity|discriminate].
Qed.

Lemma interpolateData_shape_mismatch_witness :
  interpolateData [num 7; num 8] [num 9] (Fin 0.5) halfDraws = ([num 9], halfDraws).
Proof.
  apply (interpolateData_shape_mismatch [num 7; num 8] [num 9] (Fin 0.5) halfDraws).
  left. simpl. lia.
Defined.

(* ===================================================================== *)
(** ** Painting land cover *)
(* ===================================================================== *)

Section Painting.

Variables (dataType : string) (min max opacity : number).
Hypothesis Hbranch : isLandCoverBranch dataType = true.

Lemma cellColor_landCover (value : number) :
  exists c,
    cellColor dataType value min max = Some c /\ tableColor c /\
    (objectGet landCoverColors value = None -> landCoverColors !! "0"%string = Some c).
Proof using Hbranch.
  unfold isLandCoverBranch in Hbranch.
  apply andb_true_iff in Hbranch as [H12 H3].
  apply andb_true_iff in H12 as [H1 H2].
  apply negb_true_iff in H1, H2, H3.
  unfold cellColor. rewrite H1, H2, H3.
  assert (Hzero : objectGet landCoverColors (Fin 0) = Some "#4d4d4d"%string)
    by reflexivity.
  assert (Hkey0 : landCoverColors !! "0"%string = Some "#4d4d4d"%string)
    by reflexivity.
  rewrite Hzero.
  destruct (objectGet landCoverColors value) as [c|] eqn:Hget; simpl.
  - destruct (String.eqb c "") eqn:Hempty.
    + exists "#4d4d4d"%string. split; [reflexivity|].
      split; [now exists "0"%string | discriminate].
    + exists c. split; [reflexivity|]. split; [|discriminate].
      unfold objectGet in Hget. destruct (propertyKey value) as [key|]; [|discriminate].
      now exists key.
  - exists "#4d4d4d"%string. split; [reflexivity|]. split; [now exists "0"%string|].
    intros _. exact Hkey0.
Qed.

Lemma writePixel_length (pixels : list Z) (i : nat) (c : string) :
  length (writePixel pixels i c opacity) = length pixels.
Proof.
  unfold writePixel. destruct (channels c opacity) as [[[r g] b] al].
  now rewrite !length_insert.
Qed.

Lemma writePixel_lookup_lt (pixels : list Z) (i k : nat) (c : string) :
  (k < i * 4)%nat -> writePixel pixels i c opacity !! k = pixels !! k.
Proof.
  intros Hk. unfold writePixel. destruct (channels c opacity) as [[[r g] b] al].
  rewrite !list_lookup_insert_ne by lia. reflexivity.
Qed.

Lemma writePixel_pixelAt (pixels : list Z) (i : nat) (c : string) :
  (i * 4 + 3 < length pixels)%nat ->
  pixelAt (writePixel pixels i c opacity) i = Some (channels c opacity).
Proof.
  intros Hi. unfold writePixel, pixelAt.
  destruct (channels c opacity) as [[[r g] b] al].
  assert (H0 : <[(i * 4 + 3)%nat:=al]>
                 (<[(i * 4 + 2)%nat:=b]> (<[(i * 4 + 1)%nat:=g]> (<[(i * 4)%nat:=r]> pixels)))
               !! (i * 4)%nat = Some r).
  { rewrite !list_lookup_insert_ne by lia. apply list_lookup_insert_eq. lia. }
  assert (H1 : <[(i * 4 + 3)%nat:=al]>
                 (<[(i * 4 + 2)%nat:=b]> (<[(i * 4 + 1)%nat:=g]> (<[(i * 4)%nat:=r]> pixels)))
               !! (i * 4 + 1)%nat = Some g).
  { rewrite !list_lookup_insert_ne by lia. apply list_lookup_insert_eq.
    rewrite length_insert. lia. }
  assert (H2 : <[(i * 4 + 3)%nat:=al]>
                 (<[(i * 4 + 2)%nat:=b]> (<[(i * 4 + 1)%nat:=g]> (<[(i * 4)%nat:=r]> pixels)))
               !! (i * 4 + 2)%nat = Some b).
  { rewrite !list_lookup_insert_ne by lia. apply list_lookup_insert_eq.
    rewrite !length_insert. lia. }
  assert (H3 : <[(i * 4 + 3)%nat:=al]>
                 (<[(i * 4 + 2)%nat:=b]> (<[(i * 4 + 1)%nat:=g]> (<[(i * 4)%nat:=r]> pixels)))
               !! (i * 4 + 3)%nat = Some al).
  { apply list_lookup_insert_eq. rewrite !length_insert. lia. }
  now rewrite H0, H1, H2, H3.
Qed.

Lemma pixelAt_agree (p q : list Z) (i : nat) :
  (forall k, (k < S i * 4)%nat -> p !! k = q !! k) -> pixelAt p i = pixelAt q i.
Proof.
  intros H. unfold pixelAt. now rewrite !H by lia.
Qed.

(** The loop invariant: painting from cell [i] on keeps the length of the
    buffer and everything before cell [i], and leaves at every cell it
    visits the bytes of that cell's colour. *)
Lemma paintCells_landCover (data : list number) :
  forall (i : nat) (pixels : list Z),
  exists painted,
    paintCells dataType min max opacity data i pixels = Some painted /\
    length painted = length pixels /\
    (forall k, (k < i * 4)%nat -> painted !! k = pixels !! k) /\
    (forall j v, data !! j = Some v -> ((i + j) * 4 + 3 < length pixels)%nat ->
       exists c, cellColor dataType v min max = Some c /\
                 pixelAt painted (i + j) = Some (channels c opacity)).
Proof using Hbranch.
  induction data as [|v data IH]; intros i pixels.
  - exists pixels. repeat split. intros j v Hj. discriminate.
  - destruct (cellColor_landCover v) as (c & Hc & _).
    simpl. rewrite Hc.
    destruct (IH (S i) (writePixel pixels i c opacity))
      as (painted & Hpaint & Hlen & Hkeep & Hcells).
    rewrite writePixel_length in Hlen, Hcells.
    exists painted. split; [assumption|]. split; [assumption|]. split.
    + intros k Hk. rewrite Hkeep by lia. now apply writePixel_lookup_lt.
    + intros [|j] w Hj Hbound; simpl in Hj.
      * injection Hj as <-. exists c. split; [assumption|].
        rewrite Nat.add_0_r in *.
        rewrite (pixelAt_agree painted (writePixel pixels i c opacity)) by exact Hkeep.
        now apply writePixel_pixelAt.
      * replace (i + S j)%nat with (S i + j)%nat in * by lia.
        now apply Hcells.
Qed.

End Painting.

(** C4.  Each cell of an interpolated frame is the cell of one of the two
    source frames at that index; the land-cover branch gives every cell
    value a colour of [landCoverColors], the entry of key 0 when the value
    is no key of the table; hence the buffer drawn for an interpolated
    land-cover frame holds, at every cell, the bytes of a colour of the
    table, namely the colour of one of the two source cells. *)
Theorem landCover_pixels_from_table :
  (forall (dataType : string) (value min max : number),
     isLandCoverBranch dataType = true ->
     exists c,
       cellColor dataType value min max = Some c /\ tableColor c /\
       (objectGet landCoverColors value = None ->
        landCoverColors !! "0"%string = Some c)) /\
  (forall (a b : list number) (p : number) (g : Rng) (i : nat) (c : number),
     length a = length b -> a <> [] ->
     (interpolateData a b p g).1 !! i = Some c ->
     a !! i = Some c \/ b !! i = Some c) /\
  (forall (a b : list number) (p : number) (g : Rng) (width height : nat)
          (options : RenderOptions),
     length a = length b -> a <> [] -> width <> 0%nat -> height <> 0%nat ->
     isLandCoverBranch (default "landCover"%string (opt_dataType options)) = true ->
     exists pixels,
       renderTIFFToCanvas (interpolateData a b p g).1 width height options
       = Drawn pixels /\
       length pixels = (width * height * 4)%nat /\
       forall i, (i < length a)%nat -> (i < width * height)%nat ->
         exists (v : number) (color : string),
           (a !! i = Some v \/ b !! i = Some v) /\
           tableColor color /\
           cellColor (default "landCover"%string (opt_dataType options)) v
             (default (Fin 0) (opt_min options)) (default (num 500) (opt_max options))
           = Some color /\
           pixelAt pixels i
           = Some (channels color (default (Fin 1) (opt_opacity options)))).
Proof.
  assert (Hsrc : forall (a b : list number) (p : number) (g : Rng) (i : nat) (c : number),
             length a = length b -> a <> [] ->
             (interpolateData a b p g).1 !! i = Some c ->
             a !! i = Some c \/ b !! i = Some c).
  { intros a b p g i c Hlen Hne. rewrite interpolateData_blend by assumption.
    intros Hc.
    assert (Hi : (i < length a)%nat).
    { apply lookup_lt_Some in Hc. now rewrite blendCells_length in Hc. }
    apply lookup_lt_is_Some_2 in Hi as [s Hs].
    destruct (lookup_same_length a b i s Hlen Hs) as (e & He).
    destruct (blendCells_lookup a b p g i s e Hs He) as (c' & Hc' & Hch & _).
    rewrite Hc in Hc'. injection Hc' as <-.
    destruct Hch as [->| ->]; [now left | now right]. }
  split; [|split; [exact Hsrc|]].
  - intros dataType value min max Hbranch. now apply cellColor_landCover.
  - intros a b p g width height options Hlen Hne Hw Hh Hbranch.
    unfold renderTIFFToCanvas.
    set (data := (interpolateData a b p g).1).
    assert (Hdata : length data = length a).
    { unfold data. rewrite interpolateData_blend by assumption.
      now apply blendCells_length. }
    assert (Hguard : (length data =? 0)%nat || (width =? 0)%nat || (height =? 0)%nat = false).
    { rewrite Hdata. destruct a; [congruence|].
      apply Nat.eqb_neq in Hw, Hh. simpl. now rewrite Hw, Hh. }
    rewrite Hguard.
    destruct (paintCells_landCover _ (default (Fin 0) (opt_min options))
                (default (num 500) (opt_max options))
                (default (Fin 1) (opt_opacity options)) Hbranch data 0%nat
                (replicate (width * height * 4) 0%Z))
      as (painted & -> & Hlenp & _ & Hcells).
    rewrite length_replicate in Hlenp, Hcells.
    exists painted. split; [reflexivity|]. split; [assumption|].
    intros i Hi Hwh.
    assert (Hv : is_Some (data !! i)) by (apply lookup_lt_is_Some_2; lia).
    destruct Hv as [v Hv].
    destruct (Hcells i v Hv) as (color & Hcolor & Hpix); [simpl; lia|].
    exists v, color. split; [now apply (Hsrc a b p g)|].
    split; [|split; [assumption | exact Hpix]].
    destruct (cellColor_landCover _ (default (Fin 0) (opt_min options))
                (default (num 500) (opt_max options)) Hbranch v) as (c' & Hc' & Htab & _).
    rewrite Hcolor in Hc'. now injection Hc' as <-.
Qed.

Lemma landCover_pixels_from_table_witness :
  (exists c,
     cellColor "landCover" (num 3) (Fin 0) (num 500) = Some c /\ tableColor c /\
     (objectGet landCoverColors (num 3) = None ->
      landCoverColors !! "0"%string = Some c)) /\
  ((interpolateData [num 7; num 8] [num 7; num 12] (Fin 0.4) halfDraws).1 !! 1%nat
   = Some (num 8) ->
   [num 7; num 8] !! 1%nat = Some (num 8) \/ [num 7; num 12] !! 1%nat = Some (num 8)) /\
  (exists pixels,
     renderTIFFToCanvas
       (interpolateData [num 7; num 8] [num 7; num 12] (Fin 0.4) halfDraws).1 2 1
       {| opt_opacity := None; opt_dataType := None; opt_min := None;
          opt_max := None; opt_smoothing := None |}
     = Drawn pixels /\
     length pixels = 8%nat /\
     forall i, (i < 2)%nat -> (i < 2)%nat ->
       exists (v : number) (color : string),
         ([num 7; num 8] !! i = Some v \/ [num 7; num 12] !! i = Some v) /\
         tableColor color /\
         cellColor "landCover" v (Fin 0) (num 500) = Some color /\
         pixelAt pixels i = Some (channels color (Fin 1))).
Proof.
  split; [|split].
  - apply (proj1 landCover_pixels_from_table "landCover"%string (num 3) (Fin 0) (num 500)).
    reflexivity.
  - apply (proj1 (proj2 landCover_pixels_from_table)
             [num 7; num 8] [num 7; num 12] (Fin 0.4) halfDraws 1%nat (num 8)).
    + reflexivity.
    + discriminate.
  - apply (proj2 (proj2 landCover_pixels_from_table)
             [num 7; num 8] [num 7; num 12] (Fin 0.4) halfDraws 2%nat 1%nat
             {| opt_opacity := None; opt_dataType := None; opt_min := None;
                opt_max := None; opt_smoothing := None |}).
    + reflexivity.
    + discriminate.
    + discriminate.
    + discriminate.
    + reflexivity.
Defined.

(* ===================================================================== *)
(** ** Continuous colour scales *)
(* ===================================================================== *)

Section ColourScale.

Implicit Types lo hi v w n : Q.






End ColourScale.



(* ===================================================================== *)
(** ** Statistics *)
(* ===================================================================== *)

Section PopulationStats.

Lemma sumOf_Fin (l : list Q) : sumOf (map Fin l) = Fin (Qsum l).
Proof.
  unfold sumOf, Qsum. generalize 0. induction l as [|x l IH]; intros acc.
  - reflexivity.
  - simpl. apply IH.
Qed.

Lemma positive_filter (data : list Q) :
  List.filter (fun value => Num.gtb value (Fin 0)) (map Fin data)
  = map Fin (positiveCells data).
Proof.
  rewrite filter_map_Fin. unfold positiveCells. f_equal.
  apply filter_ext. intros q.
  destruct (Qle_bool q 0) eqn:E; simpl.
  - apply gtb_Fin_false. now apply Qle_bool_iff.
  - apply gtb_Fin. apply not_true_iff_false in E.
    destruct (Qlt_le_dec 0 q) as [|Hle]; [assumption|].
    exfalso. apply E. now apply Qle_bool_iff.
Qed.

Lemma positiveCells_spec (data : list Q) (v : Q) :
  In v (positiveCells data) <-> In v data /\ 0 < v.
Proof.
  unfold positiveCells. rewrite filter_In, negb_true_iff.
  split; intros [Hin H]; (split; [assumption|]).
  - apply not_true_iff_false in H.
    destruct (Qlt_le_dec 0 v) as [|Hle]; [assumption|].
    exfalso. apply H. now apply Qle_bool_iff.
  - apply not_true_iff_false. intros Hle. apply Qle_bool_iff in Hle. lra.
Qed.

Lemma positiveCells_idem (data : list Q) :
  positiveCells (positiveCells data) = positiveCells data.
Proof.
  unfold positiveCells. induction data as [|x l IH]; [reflexivity|].
  simpl. destruct (negb (Qle_bool x 0)) eqn:E; [|assumption].
  simpl. now rewrite E, IH.
Qed.

(** The record on an array of finite cells, field by field: the zero
    record when no cell is positive, and otherwise the ten fields computed
    from the positive cells alone. *)
Lemma calculatePopulationStats_Fin (data : list Q) :
  let valid := positiveCells data in
  (valid = [] -> calculatePopulationStats (map Fin data) = populationZero) /\
  (valid <> [] ->
   exists mx,
     In mx valid /\ (forall v, In v valid -> v <= mx) /\
     let total := inject_Z (Qfloor (Qsum valid * 0.1 + (1 # 2))) in
     let urban :=
       inject_Z
         (Qfloor
            (Qsum (List.filter (fun q => Num.geb (Fin q) (Fin (mx * 0.3))) valid) * 0.1
             + (1 # 2))) in
     let female := inject_Z (Qfloor (total * 0.51 + (1 # 2))) in
     calculatePopulationStats (map Fin data)
     = list_to_map
         [ ("totalPopulation"%string, Fin total);
           ("averageDensity"%string,
            Fin (Qsum valid / inject_Z (Z.of_nat (length valid))));
           ("maxDensity"%string, Fin mx);
           ("urbanPopulation"%string, Fin urban);
           ("ruralPopulation"%string, Fin (total + - urban));
           ("populationGrowthRate"%string, Fin 3.1);
           ("populationUnder15"%string,
            Fin (inject_Z (Qfloor (total * 0.44 + (1 # 2)))));
           ("populationOver65"%string,
            Fin (inject_Z (Qfloor (total * 0.03 + (1 # 2)))));
           ("malePopulation"%string, Fin (total + - female));
           ("femalePopulation"%string, Fin female) ]).
Proof.
  intros valid. unfold calculatePopulationStats.
  rewrite positive_filter, !length_map. fold valid. split.
  - intros ->. simpl. now destruct (length data =? 0)%nat.
  - intros Hne.
    assert (Hdata : (length data =? 0)%nat = false).
    { apply Nat.eqb_neq. intros H0. apply Hne.
      apply length_zero_iff_nil in H0. unfold valid. now rewrite H0. }
    assert (Hvalid : (length valid =? 0)%nat = false).
    { apply Nat.eqb_neq. intros H0. now apply length_zero_iff_nil in H0. }
    rewrite Hdata, Hvalid.
    destruct (Math_max_Fin valid Hne) as (mx & -> & Hin & Hub).
    exists mx. split; [assumption|]. split; [assumption|].
    rewrite sumOf_Fin. simpl Num.mul.
    rewrite filter_map_Fin, sumOf_Fin.
    assert (Hlen : Num.div (Fin (Qsum valid)) (num (Z.of_nat (length valid)))
                   = Fin (Qsum valid / inject_Z (Z.of_nat (length valid)))).
    { unfold Num.div, num.
      destruct (Qeq_bool (inject_Z (Z.of_nat (length valid))) 0) eqn:E; [|reflexivity].
      apply Qeq_bool_iff in E. change 0 with (inject_Z 0) in E.
      apply (proj1 (inject_Z_injective _ _)) in E. apply Nat.eqb_neq in Hvalid. lia. }
    rewrite Hlen. reflexivity.
Qed.

End PopulationStats.

(** C2, as the specification words it, fails: on the cells [[0, 10]] the
    record's average density is 10, the average over the one positive cell,
    not 5, the average over the two cells that are not negative. *)
Lemma population_zero_cell_not_counted : ~ zero_cells_counted [0; 10].
Proof.
  intros (q & Hq & Heq).
  vm_compute in Hq. injection Hq as <-.
  vm_compute in Heq. discriminate.
Qed.

(** C2, as the code has it.  [calculatePopulationStats] keeps exactly the
    cells above 0: zero cells are dropped together with the negative ones.
    The record is the zero record when no cell is positive; otherwise its
    average density is the sum of the positive cells over their count; and
    the record is the one computed from the positive cells alone. *)
Theorem population_counts_positive_cells :
  forall data : list Q,
    (forall v, In v (positiveCells data) <-> In v data /\ 0 < v) /\
    (positiveCells data = [] ->
     calculatePopulationStats (map Fin data) = populationZero) /\
    (positiveCells data <> [] ->
     calculatePopulationStats (map Fin data) !! "averageDensity"%string
     = Some (Fin (Qsum (positiveCells data)
                  / inject_Z (Z.of_nat (length (positiveCells data)))))) /\
    calculatePopulationStats (map Fin data)
    = calculatePopulationStats (map Fin (positiveCells data)).
Proof.
  intros data.
  destruct (calculatePopulationStats_Fin data) as [Hzero Hvalid].
  split; [apply positiveCells_spec|]. split; [exact Hzero|]. split.
  - intros Hne. destruct (Hvalid Hne) as (mx & _ & _ & ->). reflexivity.
  - unfold calculatePopulationStats.
    rewrite !positive_filter, positiveCells_idem, !length_map.
    destruct (length (positiveCells data) =? 0)%nat eqn:E.
    + now destruct (length data =? 0)%nat.
    + assert (Hdata : (length data =? 0)%nat = false); [|now rewrite Hdata].
      apply Nat.eqb_neq in E. apply Nat.eqb_neq. intros H0. apply E.
      apply length_zero_iff_nil in H0. now rewrite H0.
Qed.

Lemma population_counts_positive_cells_witness :
  calculatePopulationStats (map Fin [0; 10; -3; 4]) !! "averageDensity"%string
  = Some (Fin (Qsum (positiveCells [0; 10; -3; 4])
               / inject_Z (Z.of_nat (length (positiveCells [0; 10; -3; 4]))))).
Proof.
  apply (proj1 (proj2 (proj2 (population_counts_positive_cells [0; 10; -3; 4])))).
  discriminate.
Defined.





(* ===================================================================== *)
(** ** Comparisons of finite numbers as rational tests *)
(* ===================================================================== *)

Lemma gtb_Fin_Qle (q z : Q) : Num.gtb (Fin q) (Fin z) = negb (Qle_bool q z).
Proof.
  destruct (Qle_bool q z) eqn:E; simpl.
  - apply gtb_Fin_false. now apply Qle_bool_iff.
  - apply gtb_Fin. apply not_true_iff_false in E.
    destruct (Qlt_le_dec z q) as [|Hle]; [assumption|].
    exfalso. apply E. now apply Qle_bool_iff.
Qed.

Lemma ltb_Fin_Qle (q z : Q) : Num.ltb (Fin q) (Fin z) = negb (Qle_bool z q).
Proof.
  destruct (Qle_bool z q) eqn:E; simpl.
  - apply ltb_Fin_false. now apply Qle_bool_iff.
  - apply ltb_Fin. apply not_true_iff_false in E.
    destruct (Qlt_le_dec q z) as [|Hle]; [assumption|].
    exfalso. apply E. now apply Qle_bool_iff.
Qed.

Lemma geb_Fin_Qle (q z : Q) : Num.geb (Fin q) (Fin z) = Qle_bool z q.
Proof.
  destruct (Qle_bool z q) eqn:E.
  - apply geb_Fin. now apply Qle_bool_iff.
  - apply not_true_iff_false. intros H. apply geb_Fin in H.
    apply not_true_iff_false in E. apply E. now apply Qle_bool_iff.
Qed.

Lemma leb_Fin_Qle (q z : Q) : Num.leb (Fin q) (Fin z) = Qle_bool q z.
Proof.
  destruct (Qle_bool q z) eqn:E.
  - apply leb_Fin. now apply Qle_bool_iff.
  - apply not_true_iff_false. intros H. apply leb_Fin in H.
    apply not_true_iff_false in E. apply E. now apply Qle_bool_iff.
Qed.


(* ===================================================================== *)
(** ** The closest population year *)
(* ===================================================================== *)

Section ClosestYear.

Implicit Types p c y : Q.

(** The test of the reduce callback: a later year replaces an earlier one
    only when the requested year lies strictly past their midpoint. *)
Lemma closer_iff p c y :
  p < c ->
  Num.ltb (Math_abs (Num.sub (Fin c) (Fin y))) (Math_abs (Num.sub (Fin p) (Fin y))) = true
  <-> p + c < 2 * y.
Proof.
  intros Hpc.
  change (Num.sub (Fin c) (Fin y)) with (Fin (c + - y)).
  change (Num.sub (Fin p) (Fin y)) with (Fin (p + - y)).
  change (Math_abs (Fin (c + - y))) with (Fin (Qabs (c + - y))).
  change (Math_abs (Fin (p + - y))) with (Fin (Qabs (p + - y))).
  rewrite ltb_Fin.
  pattern (Qabs (c + - y)). apply Qabs_case; intros H1;
    pattern (Qabs (p + - y)); apply Qabs_case; intros H2;
    split; intros; lra.
Qed.

Lemma closest_cases y :
  (y <= 2012.5 -> getClosestPopulationYear (Fin y) = num 2010) /\
  (2012.5 < y -> y <= 2017.5 -> getClosestPopulationYear (Fin y) = num 2015) /\
  (2017.5 < y -> getClosestPopulationYear (Fin y) = num 2020).
Proof.
  unfold getClosestPopulationYear. cbn [foldl].
  destruct (Num.ltb (Math_abs (Num.sub (num 2015) (Fin y)))
              (Math_abs (Num.sub (num 2010) (Fin y)))) eqn:E1.
  - apply (closer_iff 2010 2015) in E1; [|reflexivity].
    destruct (Num.ltb (Math_abs (Num.sub (num 2020) (Fin y)))
                (Math_abs (Num.sub (num 2015) (Fin y)))) eqn:E2.
    + apply (closer_iff 2015 2020) in E2; [|reflexivity].
      repeat split; intros; try reflexivity; exfalso; lra.
    + apply not_true_iff_false in E2. rewrite (closer_iff 2015 2020) in E2 by reflexivity.
      repeat split; intros; try reflexivity; exfalso; lra.
  - apply not_true_iff_false in E1. rewrite (closer_iff 2010 2015) in E1 by reflexivity.
    destruct (Num.ltb (Math_abs (Num.sub (num 2020) (Fin y)))
                (Math_abs (Num.sub (num 2010) (Fin y)))) eqn:E2.
    + apply (closer_iff 2010 2020) in E2; [|reflexivity].
      repeat split; intros; try reflexivity; exfalso; lra.
    + repeat split; intros; try reflexivity; exfalso; lra.
Qed.

End ClosestYear.





(* ===================================================================== *)
(** ** The file and the value range of a loaded raster *)
(* ===================================================================== *)

Lemma tiffPath_population (year : number) :
  tiffPath year "population"
  = (fun y => "/Datasets_Hackathon/Gridded_Population_Density_Data/Assaba_Pop_"
              +:+ y +:+ ".tif")
      <$> numberToString (getClosestPopulationYear year).
Proof. reflexivity. Qed.

(** X3.  Whatever year is asked for, finite or not, a population raster is
    fetched from one of the three files of 2010, 2015 and 2020.  A data type
    other than precipitation, vegetation and population is fetched from the
    land-cover file of the requested year. *)
Theorem tiffPath_population_and_fallback :
  (forall year : number,
     exists y : string,
       In y ["2010"; "2015"; "2020"]%string /\
       tiffPath year "population"
       = Some ("/Datasets_Hackathon/Gridded_Population_Density_Data/Assaba_Pop_"
               +:+ y +:+ ".tif")) /\
  (forall (year : number) (dataType : string),
     isContinuous dataType = false ->
     tiffPath year dataType = tiffPath year "landCover").
Proof.
  split.
  - intros year. rewrite tiffPath_population.
    destruct year as [y| | |].
    + destruct (closest_cases y) as (H10 & H15 & H20).
      destruct (Qlt_le_dec 2012.5 y) as [Ha|Ha]; [destruct (Qlt_le_dec 2017.5 y) as [Hb|Hb]|].
      * rewrite (H20 Hb). exists "2020"%string. split; [simpl; tauto | reflexivity].
      * rewrite (H15 Ha Hb). exists "2015"%string. split; [simpl; tauto | reflexivity].
      * rewrite (H10 Ha). exists "2010"%string. split; [simpl; tauto | reflexivity].
    + exists "2010"%string. split; [simpl; tauto | reflexivity].
    + exists "2010"%string. split; [simpl; tauto | reflexivity].
    + exists "2010"%string. split; [simpl; tauto | reflexivity].
  - intros year dataType Hother. unfold isContinuous in Hother.
    apply orb_false_iff in Hother as [Hother Hpop].
    apply orb_false_iff in Hother as [Hpre Hveg].
    unfold tiffPath. rewrite Hpre, Hveg, Hpop.
    now destruct (String.eqb dataType "landCover").
Qed.

Lemma tiffPath_population_and_fallback_witness :
  tiffPath (num 0) "regionBoundaries" = tiffPath (num 0) "landCover".
Proof.
  apply (proj2 tiffPath_population_and_fallback (num 0) "regionBoundaries"%string).
  reflexivity.
Defined.

Section ValueRange.

Variable valid : list Q.

Let lo : number :=
  if (0 <? length (map Fin valid))%nat then Num.Math_min (map Fin valid) else Fin 0.

Let hi (fallback : number) : number :=
  if (0 <? length (map Fin valid))%nat then Num.Math_max (map Fin valid) else fallback.

(** The range computed from the valid cells: the least and the greatest of
    them, or 0 and the fallback when there is none. *)
Lemma range_of_valid (fallback : Q) :
  0 <= fallback ->
  exists l h : Q,
    lo = Fin l /\ hi (Fin fallback) = Fin h /\ l <= h /\
    (valid = [] -> l == 0 /\ h == fallback) /\
    (valid <> [] ->
     In l valid /\ In h valid /\ forall v, In v valid -> l <= v /\ v <= h).
Proof.
  intros Hfb. unfold lo, hi. rewrite length_map.
  destruct valid as [|v0 rest] eqn:E.
  - exists 0, fallback. simpl. repeat split; try reflexivity; try assumption.
    + congruence.
    + congruence.
    + destruct H0.
    + destruct H0.
  - change (0 <? length (v0 :: rest))%nat with true. cbv iota.
    destruct (Math_min_Fin (v0 :: rest)) as (l & -> & Hl & Hlb); [discriminate|].
    destruct (Math_max_Fin (v0 :: rest)) as (h & -> & Hh & Hub); [discriminate|].
    exists l, h. split; [reflexivity|]. split; [reflexivity|].
    split; [now apply Hlb|]. split; [discriminate|].
    intros _. split; [assumption|]. split; [assumption|].
    intros v Hv. split; [now apply Hlb | now apply Hub].
Qed.

End ValueRange.

(** X4.  [loadTIFF] keeps the decoded band and its dimensions.  For
    precipitation, vegetation and population it adds the range of the valid
    cells (above 0; above 0 and below 3000 for vegetation; at least 0 for
    population): the least and the greatest valid cell, which bound every
    valid cell, or 0 and the fixed maximum (3000 for vegetation, 500
    otherwise) when no cell is valid.  For any other data type it adds no
    range. *)
Theorem loadTIFF_value_range :
  forall (data : list Q) (width height : nat) (dataType : string),
    frame_data (loadTIFF (Some (map Fin data, width, height)) dataType) = map Fin data /\
    frame_width (loadTIFF (Some (map Fin data, width, height)) dataType) = width /\
    frame_height (loadTIFF (Some (map Fin data, width, height)) dataType) = height /\
    (isContinuous dataType = false ->
     frame_min (loadTIFF (Some (map Fin data, width, height)) dataType) = None /\
     frame_max (loadTIFF (Some (map Fin data, width, height)) dataType) = None) /\
    (isContinuous dataType = true ->
     exists lo hi : Q,
       frame_min (loadTIFF (Some (map Fin data, width, height)) dataType) = Some (Fin lo) /\
       frame_max (loadTIFF (Some (map Fin data, width, height)) dataType) = Some (Fin hi) /\
       lo <= hi /\
       (List.filter (validCell dataType) data = [] ->
        lo == 0 /\ hi == defaultMax dataType) /\
       (List.filter (validCell dataType) data <> [] ->
        In lo (List.filter (validCell dataType) data) /\
        In hi (List.filter (validCell dataType) data) /\
        forall v, In v (List.filter (validCell dataType) data) -> lo <= v /\ v <= hi)).
Proof.
  intros data width height dataType.
  assert (Hshape :
    frame_data (loadTIFF (Some (map Fin data, width, height)) dataType) = map Fin data /\
    frame_width (loadTIFF (Some (map Fin data, width, height)) dataType) = width /\
    frame_height (loadTIFF (Some (map Fin data, width, height)) dataType) = height).
  { unfold loadTIFF.
    now destruct (String.eqb dataType "precipitation" || String.eqb dataType "vegetation"
                  || String.eqb dataType "population"). }
  destruct Hshape as (Hd & Hw & Hh).
  split; [exact Hd|]. split; [exact Hw|]. split; [exact Hh|]. split.
  - intros Hother. unfold isContinuous in Hother. unfold loadTIFF. now rewrite Hother.
  - intros Hcont. unfold isContinuous in Hcont. unfold loadTIFF, validCell, defaultMax.
    rewrite Hcont.
    destruct (String.eqb dataType "vegetation") eqn:Ev;
      [|destruct (String.eqb dataType "population") eqn:Ep].
    + rewrite filter_map_Fin.
      rewrite (filter_ext (fun q => Num.gtb (Fin q) (Fin 0) && Num.ltb (Fin q) (num 3000))
                 (fun v => negb (Qle_bool v 0) && negb (Qle_bool 3000 v))).
      2:{ intros q. unfold num. now rewrite gtb_Fin_Qle, ltb_Fin_Qle. }
      assert (Hpre : String.eqb dataType "precipitation" = false).
      { apply String.eqb_eq in Ev. now subst. }
      rewrite Hpre. cbn [frame_min frame_max].
      destruct (range_of_valid
                  (List.filter (fun v => negb (Qle_bool v 0) && negb (Qle_bool 3000 v)) data)
                  3000) as (l & h & Hl & Hhi & Hrest); [discriminate|].
      exists l, h. rewrite Hl. unfold num.
      change (Fin (inject_Z 3000)) with (Fin 3000). rewrite Hhi.
      split; [reflexivity|]. split; [reflexivity|]. exact Hrest.
    + rewrite filter_map_Fin.
      rewrite (filter_ext (fun q => Num.geb (Fin q) (Fin 0)) (fun v => Qle_bool 0 v)).
      2:{ intros q. now rewrite geb_Fin_Qle. }
      assert (Hpre : String.eqb dataType "precipitation" = false).
      { apply String.eqb_eq in Ep. now subst. }
      rewrite Hpre. cbn [frame_min frame_max].
      destruct (range_of_valid (List.filter (fun v => Qle_bool 0 v) data) 500)
        as (l & h & Hl & Hhi & Hrest); [discriminate|].
      exists l, h. rewrite Hl. unfold num.
      change (Fin (inject_Z 500)) with (Fin 500). rewrite Hhi.
      split; [reflexivity|]. split; [reflexivity|]. exact Hrest.
    + rewrite filter_map_Fin.
      rewrite (filter_ext (fun q => Num.gtb (Fin q) (Fin 0)) (fun v => negb (Qle_bool v 0))).
      2:{ intros q. now rewrite gtb_Fin_Qle. }
      assert (Hpre : String.eqb dataType "precipitation" = true).
      { rewrite ?Ev, ?Ep in Hcont. now rewrite !orb_false_r in Hcont. }
      rewrite Hpre. cbn [frame_min frame_max].
      destruct (range_of_valid (List.filter (fun v => negb (Qle_bool v 0)) data) 500)
        as (l & h & Hl & Hhi & Hrest); [discriminate|].
      exists l, h. rewrite Hl. unfold num.
      change (Fin (inject_Z 500)) with (Fin 500). rewrite Hhi.
      split; [reflexivity|]. split; [reflexivity|]. exact Hrest.
Qed.

Lemma loadTIFF_value_range_witness :
  exists lo hi : Q,
    frame_min (loadTIFF (Some (map Fin [3; -1; 0; 4.5; 70000], 5%nat, 1%nat)) "vegetation")
    = Some (Fin lo) /\
    frame_max (loadTIFF (Some (map Fin [3; -1; 0; 4.5; 70000], 5%nat, 1%nat)) "vegetation")
    = Some (Fin hi) /\
    lo <= hi /\
    (List.filter (validCell "vegetation") [3; -1; 0; 4.5; 70000] = [] ->
     lo == 0 /\ hi == defaultMax "vegetation") /\
    (List.filter (validCell "vegetation") [3; -1; 0; 4.5; 70000] <> [] ->
     In lo (List.filter (validCell "vegetation") [3; -1; 0; 4.5; 70000]) /\
     In hi (List.filter (validCell "vegetation") [3; -1; 0; 4.5; 70000]) /\
     forall v, In v (List.filter (validCell "vegetation") [3; -1; 0; 4.5; 70000]) ->
               lo <= v /\ v <= hi).
Proof.
  apply (proj2 (proj2 (proj2 (proj2
           (loadTIFF_value_range [3; -1; 0; 4.5; 70000] 5%nat 1%nat "vegetation"%string))))).
  reflexivity.
Defined.


(* ===================================================================== *)
(** ** Ends of the colour scales, cells that are not numbers *)
(* ===================================================================== *)

Section ScaleEnds.

Implicit Types lo hi v : Q.



End ScaleEnds.



Section PaintAnyType.

Variables (dataType : string) (min max opacity : number).

(** The pixel loop for any data type: when it completes, the buffer keeps
    its length, the bytes outside the cells visited are untouched and every
    visited cell inside the buffer has the bytes of its colour. *)
Lemma paintCells_spec (data : list number) :
  forall (i : nat) (pixels painted : list Z),
    paintCells dataType min max opacity data i pixels = Some painted ->
    length painted = length pixels /\
    (forall k, (k < i * 4)%nat -> painted !! k = pixels !! k) /\
    (forall k, ((i + length data) * 4 <= k)%nat -> painted !! k = pixels !! k) /\
    (forall j v, data !! j = Some v -> ((i + j) * 4 + 3 < length pixels)%nat ->
       exists c, cellColor dataType v min max = Some c /\
                 pixelAt painted (i + j) = Some (channels c opacity)).
Proof.
  induction data as [|v data IH]; intros i pixels painted Hpaint.
  - injection Hpaint as <-. repeat split. intros j v Hj. discriminate.
  - simpl in Hpaint.
    destruct (cellColor dataType v min max) as [c|] eqn:Hc; [|discriminate].
    destruct (IH (S i) _ _ Hpaint) as (Hlen & Hkeep & Hafter & Hcells).
    rewrite writePixel_length in Hlen, Hcells.
    split; [assumption|]. split; [|split].
    + intros k Hk. rewrite Hkeep by lia. now apply writePixel_lookup_lt.
    + intros k Hk. simpl in Hk. rewrite Hafter by lia.
      unfold writePixel. destruct (channels c opacity) as [[[r g] b] al].
      rewrite !list_lookup_insert_ne by lia. reflexivity.
    + intros [|j] w Hj Hbound; simpl in Hj.
      * injection Hj as <-. exists c. split; [assumption|].
        rewrite Nat.add_0_r in *.
        rewrite (pixelAt_agree painted (writePixel pixels i c opacity)) by exact Hkeep.
        now apply writePixel_pixelAt.
      * replace (i + S j)%nat with (S i + j)%nat in * by lia.
        now apply Hcells.
Qed.

(** A cell without a colour stops the loop. *)
Lemma paintCells_undefined (data : list number) :
  forall (i : nat) (pixels : list Z),
    (exists v, In v data /\ cellColor dataType v min max = None) ->
    paintCells dataType min max opacity data i pixels = None.
Proof.
  induction data as [|v data IH]; intros i pixels (w & Hin & Hw); [destruct Hin|].
  simpl. destruct (cellColor dataType v min max) as [c|] eqn:Hc; [|reflexivity].
  apply IH. exists w. split; [|assumption].
  destruct Hin as [->|Hin]; [congruence | assumption].
Qed.

End PaintAnyType.

Lemma cellColor_NaN (dataType : string) (min max : number) :
  isContinuous dataType = true -> cellColor dataType NaN min max = None.
Proof.
  unfold isContinuous, cellColor. intros H.
  destruct (String.eqb dataType "precipitation"); [reflexivity|].
  destruct (String.eqb dataType "vegetation"); [reflexivity|].
  destruct (String.eqb dataType "population"); [reflexivity|discriminate].
Qed.

(** X6.  A cell holding [NaN] has no colour on any continuous scale,
    whatever the range: its index is [NaN] and the scale has no such entry.
    Drawing a precipitation, vegetation or population frame that contains
    such a cell therefore ends in the exception of [color.slice] on
    [undefined], while a land-cover frame is drawn whatever its cells are. *)
Theorem nan_cell_stops_continuous_rendering :
  (forall (kind : ContinuousKind) (min max : number), colorOf kind NaN min max = None) /\
  (forall (dataType : string) (data : list number) (width height : nat)
          (options : RenderOptions),
     isContinuous dataType = true -> opt_dataType options = Some dataType ->
     In NaN data -> width <> 0%nat -> height <> 0%nat ->
     renderTIFFToCanvas data width height options = Threw) /\
  (forall (data : list number) (width height : nat) (options : RenderOptions),
     isLandCoverBranch (default "landCover"%string (opt_dataType options)) = true ->
     data <> [] -> width <> 0%nat -> height <> 0%nat ->
     exists pixels, renderTIFFToCanvas data width height options = Drawn pixels).
Proof.
  split; [|split].
  - intros kind min max. now destruct kind.
  - intros dataType data width height options Hcont Hdt Hin Hw Hh.
    unfold renderTIFFToCanvas.
    assert (Hguard : (length data =? 0)%nat || (width =? 0)%nat || (height =? 0)%nat = false).
    { destruct data; [destruct Hin|].
      apply Nat.eqb_neq in Hw, Hh. simpl. now rewrite Hw, Hh. }
    rewrite Hguard, Hdt. cbn [default].
    rewrite paintCells_undefined; [reflexivity|].
    exists NaN. split; [assumption|]. now apply cellColor_NaN.
  - intros data width height options Hbranch Hne Hw Hh.
    unfold renderTIFFToCanvas.
    assert (Hguard : (length data =? 0)%nat || (width =? 0)%nat || (height =? 0)%nat = false).
    { destruct data; [congruence|].
      apply Nat.eqb_neq in Hw, Hh. simpl. now rewrite Hw, Hh. }
    rewrite Hguard.
    destruct (paintCells_landCover _ (default (Fin 0) (opt_min options))
                (default (num 500) (opt_max options))
                (default (Fin 1) (opt_opacity options)) Hbranch data 0%nat
                (replicate (width * height * 4) 0%Z))
      as (painted & -> & _).
    now exists painted.
Qed.

Lemma nan_cell_stops_continuous_rendering_witness :
  renderTIFFToCanvas [num 120; NaN; num 80] 3 1
    {| opt_opacity := Some (Fin 1); opt_dataType := Some "precipitation"%string;
       opt_min := Some (Fin 0); opt_max := Some (num 500); opt_smoothing := Some true |}
  = Threw /\
  exists pixels,
    renderTIFFToCanvas [num 7; NaN; num 8] 3 1
      {| opt_opacity := Some (Fin 1); opt_dataType := Some "landCover"%string;
         opt_min := Some (Fin 0); opt_max := Some (num 500); opt_smoothing := Some false |}
    = Drawn pixels.
Proof.
  split.
  - apply (proj1 (proj2 nan_cell_stops_continuous_rendering) "precipitation"%string).
    + reflexivity.
    + reflexivity.
    + simpl. tauto.
    + discriminate.
    + discriminate.
  - apply (proj2 (proj2 nan_cell_stops_continuous_rendering)).
    + reflexivity.
    + discriminate.
    + discriminate.
    + discriminate.
Defined.


(* ===================================================================== *)
(** ** The buffer handed to the canvas *)
(* ===================================================================== *)

(** X7.  [renderTIFFToCanvas] draws nothing exactly when the data is empty
    or a dimension is 0, so the empty frame of a failed load is never
    drawn.  A buffer that is drawn has [4 * width * height] bytes; every
    cell inside it has the bytes of its colour, cells past
    [width * height] leave no trace, and the pixels past the end of the data
    keep their initial four zero bytes. *)
Theorem render_guard_and_buffer :
  (forall (data : list number) (width height : nat) (options : RenderOptions),
     renderTIFFToCanvas data width height options = NotDrawn
     <-> data = [] \/ width = 0%nat \/ height = 0%nat) /\
  (forall (dataType : string) (width height : nat) (options : RenderOptions),
     renderTIFFToCanvas (frame_data (loadTIFF None dataType)) width height options
     = NotDrawn) /\
  (forall (data : list number) (width height : nat) (options : RenderOptions)
          (pixels : list Z),
     renderTIFFToCanvas data width height options = Drawn pixels ->
     length pixels = (width * height * 4)%nat /\
     (forall i v, data !! i = Some v -> (i < width * height)%nat ->
        exists c,
          cellColor (default "landCover"%string (opt_dataType options)) v
            (default (Fin 0) (opt_min options)) (default (num 500) (opt_max options))
          = Some c /\
          pixelAt pixels i = Some (channels c (default (Fin 1) (opt_opacity options)))) /\
     (forall i, (length data <= i)%nat -> (i < width * height)%nat ->
        pixelAt pixels i = Some (0, 0, 0, 0)%Z)).
Proof.
  assert (Hguard : forall (data : list number) (width height : nat),
             (length data =? 0)%nat || (width =? 0)%nat || (height =? 0)%nat = true
             <-> data = [] \/ width = 0%nat \/ height = 0%nat).
  { intros data width height.
    rewrite !orb_true_iff, !Nat.eqb_eq, length_zero_iff_nil. tauto. }
  split; [|split].
  - intros data width height options. rewrite <- Hguard. unfold renderTIFFToCanvas.
    destruct ((length data =? 0)%nat || (width =? 0)%nat || (height =? 0)%nat).
    + split; reflexivity.
    + destruct (paintCells _ _ _ _ _ _ _); split; discriminate.
  - reflexivity.
  - intros data width height options pixels. unfold renderTIFFToCanvas.
    destruct ((length data =? 0)%nat || (width =? 0)%nat || (height =? 0)%nat);
      [discriminate|].
    destruct (paintCells _ _ _ _ data 0 _) as [painted|] eqn:Hpaint; [|discriminate].
    intros [= <-].
    destruct (paintCells_spec _ _ _ _ _ _ _ _ Hpaint) as (Hlen & _ & Hafter & Hcells).
    rewrite length_replicate in Hlen, Hcells.
    split; [assumption|]. split.
    + intros i v Hv Hi. apply (Hcells i v Hv). simpl. lia.
    + intros i Hi Hwh. unfold pixelAt.
      rewrite !Hafter by (simpl; lia).
      rewrite !lookup_replicate_2 by lia. reflexivity.
Qed.

Lemma render_guard_and_buffer_witness :
  length [26; 152; 80; 255; 0; 0; 0; 0]%Z = (2 * 1 * 4)%nat /\
  pixelAt [26; 152; 80; 255; 0; 0; 0; 0]%Z 1 = Some (0, 0, 0, 0)%Z.
Proof.
  destruct (proj2 (proj2 render_guard_and_buffer) [num 7] 2%nat 1%nat
              {| opt_opacity := None; opt_dataType := None; opt_min := None;
                 opt_max := None; opt_smoothing := None |}
              [26; 152; 80; 255; 0; 0; 0; 0]%Z eq_refl) as (Hlen & _ & Hrest).
  split; [exact Hlen|]. apply Hrest; simpl; lia.
Defined.

Section Opacity.

Lemma arrayGet_In {A : Type} (xs : list A) (n : number) (x : A) :
  arrayGet xs n = Some x -> In x xs.
Proof.
  unfold arrayGet. destruct (Num.to_index n) as [z|]; [|discriminate].
  destruct (0 <=? z)%Z; [|discriminate].
  intros H. apply list_elem_of_In. now apply list_elem_of_lookup_2 in H.
Qed.

Lemma objectGet_In (value : number) (c : string) :
  objectGet landCoverColors value = Some c -> In c (map_to_list landCoverColors).*2.
Proof.
  unfold objectGet. destruct (propertyKey value) as [key|]; [|discriminate].
  intros H. apply elem_of_map_to_list in H.
  apply list_elem_of_In. apply list_elem_of_fmap. now exists (key, c).
Qed.

(** Every colour chosen for a cell is one of the palette. *)
Lemma cellColor_palette (dataType : string) (value min max : number) (c : string) :
  cellColor dataType value min max = Some c -> In c paletteColors.
Proof.
  unfold cellColor, paletteColors, getPrecipitationColor, getVegetationColor,
    getPopulationDensityColor, colorOrElse.
  rewrite !in_app_iff. intros H.
  destruct (String.eqb dataType "precipitation").
  { apply arrayGet_In in H. tauto. }
  destruct (String.eqb dataType "vegetation").
  { destruct (Num.strict_eq value (num 65533)).
    - injection H as <-. simpl. tauto.
    - cbn [orb] in H. destruct (Num.leb value (Fin 0)).
      + injection H as <-. simpl. tauto.
      + apply arrayGet_In in H. tauto. }
  destruct (String.eqb dataType "population").
  { destruct (Num.ltb value (Fin 0)).
    - injection H as <-. simpl. tauto.
    - apply arrayGet_In in H. tauto. }
  left. destruct (objectGet landCoverColors value) as [s|] eqn:Hget.
  - destruct (String.eqb s "").
    + apply (objectGet_In (Fin 0)). exact H.
    + injection H as <-. now apply (objectGet_In value).
  - apply (objectGet_In (Fin 0)). exact H.
Qed.

Lemma transparent_alpha (opacity : number) : alphaOf (channels transparent opacity) = 0%Z.
Proof.
  now destruct opacity.
Qed.

End Opacity.

(** X8.  At opacity 1, the opacity the component passes, every pixel that
    is written is fully opaque or fully transparent: the transparent colour
    has alpha 0 under every opacity, and every other colour a cell can get
    has alpha 255. *)
Theorem pixels_opaque_or_transparent :
  (forall opacity : number, alphaOf (channels transparent opacity) = 0%Z) /\
  (forall (dataType : string) (value min max : number) (c : string),
     cellColor dataType value min max = Some c ->
     c <> transparent ->
     alphaOf (channels c (Fin 1)) = 255%Z).
Proof.
  split; [exact transparent_alpha|].
  intros dataType value min max c Hc Hnt.
  apply cellColor_palette in Hc.
  vm_compute in Hc.
  repeat (destruct Hc as [<-|Hc]; [first [reflexivity | now exfalso; apply Hnt]|]).
  destruct Hc.
Qed.

Lemma pixels_opaque_or_transparent_witness :
  alphaOf (channels "#d73027" (Fin 1)) = 255%Z.
Proof.
  apply (proj2 pixels_opaque_or_transparent "landCover"%string (num 13) (Fin 0) (num 500)).
  - reflexivity.
  - discriminate.
Defined.


(* ===================================================================== *)
(** ** The land-cover histogram *)
(* ===================================================================== *)

Section Histogram.

(** The callback of [data.forEach] in [calculateLandCoverStats]. *)
Let count (stats : gmap string number) (value : number) : gmap string number :=
  match propertyKey value with
  | Some key =>
      match stats !! key with
      | Some n => <[key := Num.add n (Fin 1)]> stats
      | None => stats
      end
  | None => stats
  end.

Lemma count_lookup (stats : gmap string number) (value : number) (key : string) :
  count stats value !! key
  = match stats !! key with
    | Some n => if bool_decide (propertyKey value = Some key)
                then Some (Num.add n (Fin 1)) else Some n
    | None => None
    end.
Proof.
  unfold count. destruct (propertyKey value) as [k|].
  - destruct (decide (k = key)) as [->|Hne].
    + rewrite bool_decide_eq_true_2 by reflexivity.
      destruct (stats !! key) as [n|] eqn:E; [|now rewrite E].
      now rewrite lookup_insert_eq.
    + rewrite bool_decide_eq_false_2 by congruence.
      destruct (stats !! k) as [n|]; [|now destruct (stats !! key)].
      rewrite lookup_insert_ne by assumption. now destruct (stats !! key).
  - rewrite bool_decide_eq_false_2 by discriminate. now destruct (stats !! key).
Qed.

Lemma counted_lookup (data : list number) :
  forall (stats : gmap string number) (key : string),
    (stats !! key = None -> foldl count stats data !! key = None) /\
    (forall q : Q, stats !! key = Some (Fin q) ->
       exists q' : Q,
         foldl count stats data !! key = Some (Fin q') /\
         q' == q + inject_Z (Z.of_nat
                     (length (List.filter
                                (fun v => bool_decide (propertyKey v = Some key)) data)))).
Proof.
  induction data as [|v data IH]; intros stats key.
  - split; [easy|]. intros q Hq. exists q. split; [assumption|]. simpl. ring.
  - simpl foldl. destruct (IH (count stats v) key) as [IHnone IHsome]. split.
    + intros Hnone. apply IHnone. now rewrite count_lookup, Hnone.
    + intros q Hq. simpl List.filter.
      destruct (bool_decide (propertyKey v = Some key)) eqn:E.
      * destruct (IHsome (q + 1)) as (q' & Hq' & Heq).
        { rewrite count_lookup, Hq, E. reflexivity. }
        exists q'. split; [assumption|]. rewrite Heq.
        cbn [length]. rewrite Nat2Z.inj_succ, <- Z.add_1_r, inject_Z_plus. ring.
      * destruct (IHsome q) as (q' & Hq' & Heq).
        { rewrite count_lookup, Hq, E. reflexivity. }
        exists q'. now split.
Qed.

Lemma initial_stats (keys : list string) (key : string) :
  foldr (fun k (stats : gmap string number) => <[k := Fin 0]> stats) ∅ keys !! key
  = if bool_decide (key ∈ keys) then Some (Fin 0) else None.
Proof.
  induction keys as [|k keys IH]; cbn [foldr].
  - rewrite lookup_empty. case_bool_decide as H; [|reflexivity].
    now apply elem_of_nil in H.
  - destruct (decide (k = key)) as [->|Hne].
    + rewrite lookup_insert_eq.
      now rewrite bool_decide_eq_true_2 by apply list_elem_of_here.
    + rewrite lookup_insert_ne by assumption. rewrite IH.
      rewrite (bool_decide_ext (key ∈ k :: keys) (key ∈ keys)); [reflexivity|].
      rewrite elem_of_cons. split; [|now right].
      intros [->|H]; [congruence | assumption].
Qed.

Lemma calculateLandCoverStats_eq (data : list number) :
  calculateLandCoverStats data
  = foldl count
      (foldr (fun k (stats : gmap string number) => <[k := Fin 0]> stats) ∅
         (Object_keys landCoverClasses))
      data.
Proof. reflexivity. Qed.

Lemma Object_keys_spec {A : Type} (obj : gmap string A) (key : string) :
  key ∈ Object_keys obj <-> is_Some (obj !! key).
Proof.
  unfold Object_keys. rewrite list_elem_of_fmap. split.
  - intros ([k x] & -> & Hin). apply elem_of_map_to_list in Hin. now exists x.
  - intros [x Hx]. exists (key, x). split; [reflexivity|]. now apply elem_of_map_to_list.
Qed.

Lemma propertyKey_pretty (v : number) (k : Z) :
  propertyKey v = Some (pretty k) <-> Num.to_index v = Some k.
Proof.
  unfold propertyKey. destruct (Num.to_index v) as [z|]; [|easy].
  split; intros [= H]; [|now subst]. f_equal. now apply (inj pretty).
Qed.

(** X9.  The record of [calculateLandCoverStats] has exactly the keys of
    [landCoverClasses], whatever the data, and under each class code the
    number of cells holding that code; a cell holding anything else (an
    unknown code, a fraction, [NaN]) is counted nowhere. *)
Theorem landCover_histogram_counts :
  forall data : list number,
    (forall key : string,
       is_Some (calculateLandCoverStats data !! key)
       <-> is_Some (landCoverClasses !! key)) /\
    (forall k : Z, In k classCodes ->
       exists q : Q,
         calculateLandCoverStats data !! pretty k = Some (Fin q) /\
         q == inject_Z (Z.of_nat (cellsOfClass k data))).
Proof using Type.
  intros data. rewrite calculateLandCoverStats_eq.
  set (stats0 := foldr (fun k (stats : gmap string number) => <[k := Fin 0]> stats) ∅
                   (Object_keys landCoverClasses)).
  assert (Hinit : forall key,
             stats0 !! key
             = if bool_decide (is_Some (landCoverClasses !! key)) then Some (Fin 0) else None).
  { intros key. unfold stats0. rewrite initial_stats.
    now rewrite (bool_decide_ext _ _ (Object_keys_spec landCoverClasses key)). }
  split.
  - intros key. destruct (counted_lookup data stats0 key) as [Hnone Hsome].
    specialize (Hinit key).
    destruct (decide (is_Some (landCoverClasses !! key))) as [Hyes|Hno].
    + rewrite bool_decide_eq_true_2 in Hinit by assumption.
      destruct (Hsome 0 Hinit) as (q' & -> & _). split; [easy|]. intros _. now eexists.
    + rewrite bool_decide_eq_false_2 in Hinit by assumption.
      rewrite (Hnone Hinit). split; [intros [? [=]] | contradiction].
  - intros k Hk.
    assert (Hkey : stats0 !! pretty k = Some (Fin 0)).
    { unfold classCodes in Hk. simpl in Hk.
      repeat (destruct Hk as [<-|Hk]; [reflexivity|]). destruct Hk. }
    destruct (counted_lookup data stats0 (pretty k)) as [_ Hsome].
    destruct (Hsome 0 Hkey) as (q' & Hq' & Heq).
    exists q'. split; [assumption|]. rewrite Heq, Qplus_0_l.
    unfold cellsOfClass.
    rewrite (filter_ext (fun v => bool_decide (propertyKey v = Some (pretty k)))
               (fun v => bool_decide (Num.to_index v = Some k))); [reflexivity|].
    intros v. apply bool_decide_ext, propertyKey_pretty.
Qed.

End Histogram.

Lemma landCover_histogram_counts_witness :
  exists q : Q,
    calculateLandCoverStats [num 7; num 7; num 8; num 0; num 3; NaN] !! pretty 7%Z
    = Some (Fin q) /\
    q == inject_Z (Z.of_nat (cellsOfClass 7 [num 7; num 7; num 8; num 0; num 3; NaN])).
Proof.
  apply (proj2 (landCover_histogram_counts [num 7; num 7; num 8; num 0; num 3; NaN]) 7%Z).
  simpl. tauto.
Defined.


(* ===================================================================== *)
(** ** Continuous summaries *)
(* ===================================================================== *)

Section Summaries.

Implicit Types (l valid : list Q) (lo hi : Q).











Lemma length_zero_eqb {A : Type} (xs : list A) :
  (length xs =? 0)%nat = true <-> xs = [].
Proof. rewrite Nat.eqb_eq. apply length_zero_iff_nil. Qed.

End Summaries.







(** X13.  With draws in [[0, 1)], the four fields of the record of
    [calculateTransitionStats] lie in [[0, 10)], [[0, 1000)], [[0, 500)] and
    [[0, 2000)], and the call moves the generator on by four draws. *)
Theorem transition_stats_ranges :
  forall (data : list number) (g : Rng),
    unit_draws g ->
    exists a b c d : Q,
      (calculateTransitionStats data g).1 !! "transitionIntensity"%string = Some (Fin a) /\
      (calculateTransitionStats data g).1 !! "degradedArea"%string = Some (Fin b) /\
      (calculateTransitionStats data g).1 !! "improvedArea"%string = Some (Fin c) /\
      (calculateTransitionStats data g).1 !! "stableArea"%string = Some (Fin d) /\
      (0 <= a /\ a < 10) /\ (0 <= b /\ b < 1000) /\
      (0 <= c /\ c < 500) /\ (0 <= d /\ d < 2000) /\
      cursor (calculateTransitionStats data g).2 = (cursor g + 4)%nat.
Proof.
  intros data g Hunit.
  pose proof (Hunit (cursor g)) as H0.
  pose proof (Hunit (S (cursor g))) as H1.
  pose proof (Hunit (S (S (cursor g)))) as H2.
  pose proof (Hunit (S (S (S (cursor g))))) as H3.
  exists (draws g (cursor g) * 10), (draws g (S (cursor g)) * 1000),
    (draws g (S (S (cursor g))) * 500), (draws g (S (S (S (cursor g)))) * 2000).
  do 4 (split; [reflexivity|]).
  repeat split; try lra. simpl. lia.
Qed.

Lemma transition_stats_ranges_witness :
  exists a b c d : Q,
    (calculateTransitionStats [] halfDraws).1 !! "transitionIntensity"%string = Some (Fin a) /\
    (calculateTransitionStats [] halfDraws).1 !! "degradedArea"%string = Some (Fin b) /\
    (calculateTransitionStats [] halfDraws).1 !! "improvedArea"%string = Some (Fin c) /\
    (calculateTransitionStats [] halfDraws).1 !! "stableArea"%string = Some (Fin d) /\
    (0 <= a /\ a < 10) /\ (0 <= b /\ b < 1000) /\
    (0 <= c /\ c < 500) /\ (0 <= d /\ d < 2000) /\
    cursor (calculateTransitionStats [] halfDraws).2 = (cursor halfDraws + 4)%nat.
Proof.
  apply (transition_stats_ranges [] halfDraws).
  intros n. simpl. lra.
Defined.


(* ===================================================================== *)
(** ** Calibrated rainfall figures *)
(* ===================================================================== *)

Section RainfallTable.










End RainfallTable.




(* ===================================================================== *)
(** ** Zoom and layer state *)
(* ===================================================================== *)

(** X16.  Whatever buttons are pressed, a zoom level that starts between
    0.5 and 3 stays between 0.5 and 3; the component starts at 1. *)
Theorem zoom_level_stays_in_range :
  forall (buttons : list ZoomButton) (z0 : Q),
    0.5 <= z0 -> z0 <= 3 ->
    exists z : Q, foldl pressZoom (Fin z0) buttons = Fin z /\ 0.5 <= z /\ z <= 3.
Proof.
  induction buttons as [|b buttons IH]; intros z0 Hlo Hhi.
  - exists z0. now split.
  - cbn [foldl]. destruct b; cbn [pressZoom].
    + unfold handleZoomIn, num.
      change (Num.add (Fin z0) (Fin 0.2)) with (Fin (z0 + 0.2)). rewrite min2_Fin.
      destruct (Num.ltb (Fin (inject_Z 3)) (Fin (z0 + 0.2))) eqn:E.
      * apply IH; unfold inject_Z; lra.
      * apply ltb_Fin_false in E. unfold inject_Z in E. apply IH; lra.
    + unfold handleZoomOut.
      change (Num.sub (Fin z0) (Fin 0.2)) with (Fin (z0 + - 0.2)). rewrite max2_Fin.
      destruct (Num.ltb (Fin (z0 + - 0.2)) (Fin 0.5)) eqn:E.
      * apply IH; lra.
      * apply ltb_Fin_false in E. apply IH; lra.
    + unfold handleResetView, num. apply IH; unfold inject_Z; lra.
Qed.

Lemma zoom_level_stays_in_range_witness :
  exists z : Q,
    foldl pressZoom initialZoom
      [ZoomInButton; ZoomInButton; ZoomOutButton; ResetViewButton; ZoomOutButton]
    = Fin z /\ 0.5 <= z /\ z <= 3.
Proof.
  apply (zoom_level_stays_in_range
           [ZoomInButton; ZoomInButton; ZoomOutButton; ResetViewButton; ZoomOutButton] 1);
    discriminate.
Defined.

(** Decides the comparisons of two string literals in the goal. *)
Ltac eqb_concrete :=
  repeat match goal with
         | |- context [String.eqb ?a ?b] =>
             let v := eval vm_compute in (String.eqb a b) in
             match v with true => idtac | false => idtac end;
             change (String.eqb a b) with v
         end.

Section Layers.

Implicit Types (layers : gmap string bool) (id : string).

Lemma isActive_insert layers id (b : bool) (k : string) :
  isActive (<[id := b]> layers) k = if String.eqb id k then b else isActive layers k.
Proof.
  unfold isActive. destruct (String.eqb_spec id k) as [->|Hne].
  - now rewrite lookup_insert_eq.
  - now rewrite lookup_insert_ne.
Qed.

Lemma updateLayers_exclusive layers (event : LayerEvent) :
  oneRasterAtMost layers -> oneRasterAtMost (updateLayers layers event).
Proof.
  unfold oneRasterAtMost. intros H. destruct event as [id|dataType]; cbn [updateLayers].
  - unfold handleLayerToggle.
    destruct (String.eqb id "landCover" || String.eqb id "precipitation") eqn:Hb.
    + rewrite !isActive_insert. eqb_concrete.
      destruct (String.eqb_spec id "landCover") as [->|Hlc]; reflexivity.
    + apply orb_false_iff in Hb as [Hlc Hpr].
      rewrite !isActive_insert. now rewrite Hlc, Hpr.
  - unfold followDataType. rewrite !isActive_insert. eqb_concrete.
    destruct (String.eqb_spec dataType "landCover") as [->|Hlc]; reflexivity.
Qed.

End Layers.

(** X17.  From the initial layers, whatever sequence of layer toggles and
    data-type changes follows, land cover and precipitation are never both
    active. *)
Theorem rasters_never_both_active :
  forall events : list LayerEvent,
    oneRasterAtMost (foldl updateLayers initialLayers events).
Proof.
  assert (H : forall (events : list LayerEvent) (layers : gmap string bool),
             oneRasterAtMost layers -> oneRasterAtMost (foldl updateLayers layers events)).
  { induction events as [|e events IH]; intros layers Hl; [assumption|].
    cbn [foldl]. apply IH. now apply updateLayers_exclusive. }
  intros events. apply H. reflexivity.
Qed.

(** X18.  Toggling an overlay flips that layer and no other; toggling it
    twice leaves every layer as active as it was, also when the layer had no
    entry.  Toggling a raster makes it the one active raster and touches no
    overlay. *)
Theorem layer_toggle_effect :
  forall (layers : gmap string bool) (id k : string),
    (String.eqb id "landCover" || String.eqb id "precipitation" = false ->
     isActive (handleLayerToggle id layers) id = negb (isActive layers id) /\
     (k <> id -> isActive (handleLayerToggle id layers) k = isActive layers k) /\
     isActive (handleLayerToggle id (handleLayerToggle id layers)) k = isActive layers k) /\
    (String.eqb id "landCover" || String.eqb id "precipitation" = true ->
     isActive (handleLayerToggle id layers) id = true /\
     (k <> "landCover"%string -> k <> "precipitation"%string ->
      isActive (handleLayerToggle id layers) k = isActive layers k) /\
     (k <> id -> (k = "landCover"%string \/ k = "precipitation"%string) ->
      isActive (handleLayerToggle id layers) k = false)).
Proof.
  intros layers id k. split; intros Hbase.
  - assert (Htoggle : forall l, handleLayerToggle id l = <[id := negb (isActive l id)]> l).
    { intros l. unfold handleLayerToggle. now rewrite Hbase. }
    rewrite !Htoggle, !isActive_insert, String.eqb_refl.
    split; [reflexivity|]. split.
    + intros Hne. apply not_eq_sym in Hne. apply String.eqb_neq in Hne. now rewrite Hne.
    + destruct (String.eqb_spec id k) as [->|Hne]; [|reflexivity].
      apply negb_involutive.
  - unfold handleLayerToggle. rewrite Hbase. rewrite !isActive_insert.
    apply orb_true_iff in Hbase.
    destruct (String.eqb_spec id "landCover") as [->|Hlc].
    + split; [reflexivity|]. split.
      * intros H1 H2. apply not_eq_sym in H1, H2. apply String.eqb_neq in H1, H2.
        now rewrite H1, H2.
      * intros Hne [->| ->]; [congruence | reflexivity].
    + destruct Hbase as [Hb|Hb]; [discriminate|]. apply String.eqb_eq in Hb. subst id.
      split; [reflexivity|]. split.
      * intros H1 H2. apply not_eq_sym in H1, H2. apply String.eqb_neq in H1, H2.
        now rewrite H1, H2.
      * intros Hne [->| ->]; [reflexivity | congruence].
Qed.

Lemma layer_toggle_effect_witness :
  isActive (handleLayerToggle "roadNetwork" initialLayers) "roadNetwork"
  = negb (isActive initialLayers "roadNetwork") /\
  isActive (handleLayerToggle "precipitation" initialLayers) "landCover" = false.
Proof.
  split.
  - apply (proj1 (layer_toggle_effect initialLayers "roadNetwork" "roadNetwork")).
    reflexivity.
  - apply (proj2 (layer_toggle_effect initialLayers "precipitation" "landCover")).
    + reflexivity.
    + discriminate.
    + now left.
Defined.




(* ===================================================================== *)
(** ** Drawing a raster layer *)
(* ===================================================================== *)

Section RenderLayer.

Variable mapData : gmap string (gmap Z Frame).
Variable layerType : string.

Implicit Types (query : TemporalQuery) (g : Rng) (frame : Frame).

Lemma renderLayer_missing query g :
  frameMissing mapData layerType (prevYear query) ->
  renderLayer mapData query layerType g = ({| drawn := None; newStats := None |}, g).
Proof.
  unfold frameMissing, renderLayer.
  destruct (frameAt (default ∅ (mapData !! layerType)) (prevYear query)) as [frame|];
    [|reflexivity].
  intros ->. reflexivity.
Qed.

(** With no usable frame for [nextYear], or with [nextYear] equal to
    [prevYear], the cells of the [prevYear] frame are shown as they are. *)
Lemma renderLayer_single query frame g :
  frameAt (default ∅ (mapData !! layerType)) (prevYear query) = Some frame ->
  frame_data frame <> [] ->
  frameAt (default ∅ (mapData !! layerType)) (nextYear query) = None \/
  Num.strict_eq (prevYear query) (nextYear query) = true ->
  renderLayer mapData query layerType g
  = (showCells (frame_data frame) frame layerType, g).
Proof.
  intros Hprev Hne Hnext. unfold renderLayer. rewrite Hprev.
  assert (Hlen : (length (frame_data frame) =? 0)%nat = false).
  { apply not_true_iff_false. intros H. now apply length_zero_eqb in H. }
  rewrite Hlen. unfold showCells, bind, ret.
  assert (Hdata :
    match frameAt (default ∅ (mapData !! layerType)) (nextYear query) with
    | Some nextYearData =>
        if negb (Num.strict_eq (prevYear query) (nextYear query))
        then interpolateData (frame_data frame) (frame_data nextYearData) (progress query)
        else fun g0 => (frame_data frame, g0)
    | None => fun g0 => (frame_data frame, g0)
    end g = (frame_data frame, g)).
  { destruct Hnext as [-> | Heq]; [reflexivity|].
    rewrite Heq. now destruct (frameAt _ (nextYear query)). }
  unfold ret in Hdata. rewrite Hdata.
  now destruct (renderTIFFToCanvas _ _ _ _).
Qed.

End RenderLayer.

(** X20.  [renderLayer] reaches the canvas exactly when the frame of
    [prevYear] is loaded and not empty.  Otherwise (frame not loaded, year
    that is no key such as [-Infinity], or the empty frame of a failed load)
    it draws nothing, publishes no statistics and makes no draw. *)
Theorem renderLayer_needs_prev_frame :
  forall (mapData : gmap string (gmap Z Frame)) (query : TemporalQuery)
         (layerType : string) (g : Rng),
    (frameMissing mapData layerType (prevYear query) ->
     renderLayer mapData query layerType g
     = ({| drawn := None; newStats := None |}, g)) /\
    (drawn (renderLayer mapData query layerType g).1 = None
     <-> frameMissing mapData layerType (prevYear query)).
Proof.
  intros mapData query layerType g.
  split; [apply renderLayer_missing|]. split.
  - unfold frameMissing, renderLayer.
    destruct (frameAt (default ∅ (mapData !! layerType)) (prevYear query)) as [frame|];
      [|easy].
    destruct (length (frame_data frame) =? 0)%nat eqn:E.
    + intros _. now apply length_zero_eqb.
    + unfold bind, ret.
      match goal with
      | |- context [let '(a, g') := ?c in _] => destruct c as [renderData g1]
      end.
      now destruct (renderTIFFToCanvas _ _ _ _).
  - intros H. now rewrite renderLayer_missing.
Qed.

Lemma renderLayer_needs_prev_frame_witness :
  renderLayer {[ "population"%string := {[ 2020%Z := loadTIFF None "population" ]} ]}
    (yearBracket (num 2023) "population") "population" halfDraws
  = ({| drawn := None; newStats := None |}, halfDraws).
Proof.
  apply (proj1 (renderLayer_needs_prev_frame
                  {[ "population"%string := {[ 2020%Z := loadTIFF None "population" ]} ]}
                  (yearBracket (num 2023) "population") "population"%string halfDraws)).
  reflexivity.
Defined.

(** X21.  When the requested year is one of the available years of the
    data type and its frame is loaded, [renderLayer] shows exactly the cells
    of that frame: nothing is interpolated, no draw is made and the
    statistics are those of the frame. *)
Theorem renderLayer_available_year :
  forall (dataType : string) (y : Q) (mapData : gmap string (gmap Z Frame))
         (layerType : string) (frame : Frame) (g : Rng),
    includes (getAvailableYears dataType) (Fin y) = true ->
    frameAt (default ∅ (mapData !! layerType)) (Fin y) = Some frame ->
    frame_data frame <> [] ->
    renderLayer mapData (yearBracket (Fin y) dataType) layerType g
    = (showCells (frame_data frame) frame layerType, g).
Proof.
  intros dataType y mapData layerType frame g Hinc Hframe Hne.
  unfold yearBracket, resolveTemporalQuery. rewrite Hinc.
  apply renderLayer_single; cbn [prevYear nextYear]; [assumption..|].
  right. apply strict_eq_Fin. reflexivity.
Qed.

Lemma renderLayer_available_year_witness :
  renderLayer
    {[ "landCover"%string :=
         {[ 2015%Z := loadTIFF (Some ([num 7; num 8], 2%nat, 1%nat)) "landCover" ]} ]}
    (yearBracket (Fin 2015) "landCover") "landCover" halfDraws
  = (showCells [num 7; num 8] (loadTIFF (Some ([num 7; num 8], 2%nat, 1%nat)) "landCover")
       "landCover", halfDraws).
Proof.
  apply (renderLayer_available_year "landCover" 2015
           {[ "landCover"%string :=
                {[ 2015%Z := loadTIFF (Some ([num 7; num 8], 2%nat, 1%nat)) "landCover" ]} ]}
           "landCover"
           (loadTIFF (Some ([num 7; num 8], 2%nat, 1%nat)) "landCover") halfDraws).
  - reflexivity.
  - reflexivity.
  - discriminate.
Defined.

(** X22.  A year past the last available one is drawn exactly as the last
    available year would be: [nextYear] is [Infinity], no frame is stored
    under it, and the frame of [prevYear] is shown without interpolation.
    A year before the first available one draws nothing, whatever is
    loaded, because [prevYear] is [-Infinity]. *)
Theorem renderLayer_outside_range :
  forall (dataType : string) (y : Q),
    ((forall e, In (Fin e) (getAvailableYears dataType) -> e < y) ->
     exists b : Q,
       In (Fin b) (getAvailableYears dataType) /\
       (forall e, In (Fin e) (getAvailableYears dataType) -> e <= b) /\
       forall (mapData : gmap string (gmap Z Frame)) (layerType : string) (g : Rng),
         renderLayer mapData (yearBracket (Fin y) dataType) layerType g
         = renderLayer mapData (yearBracket (Fin b) dataType) layerType g) /\
    ((forall e, In (Fin e) (getAvailableYears dataType) -> y < e) ->
     forall (mapData : gmap string (gmap Z Frame)) (layerType : string) (g : Rng),
       renderLayer mapData (yearBracket (Fin y) dataType) layerType g
       = ({| drawn := None; newStats := None |}, g)).
Proof.
  intros dataType y. split.
  - intros Habove.
    destruct (yearBracket_above_range dataType y Habove) as (b & Hq & Hb & Hmax).
    exists b. split; [assumption|]. split; [assumption|].
    intros mapData layerType g. rewrite Hq.
    assert (Hqb : yearBracket (Fin b) dataType
                  = {| prevYear := Fin b; nextYear := Fin b; progress := Fin 0 |}).
    { unfold yearBracket, resolveTemporalQuery.
      destruct (getAvailableYears_finite dataType) as (ys & Hys & _).
      rewrite Hys in *.
      assert (Hinc : includes (map Fin ys) (Fin b) = true).
      { apply includes_Fin. exists b. split; [now apply In_Fin_map | reflexivity]. }
      now rewrite Hinc. }
    rewrite Hqb.
    destruct (frameAt (default ∅ (mapData !! layerType)) (Fin b)) as [frame|] eqn:Hframe.
    + destruct (frame_data frame) as [|c cells] eqn:Hdata.
      * rewrite !renderLayer_missing; [reflexivity| |];
          unfold frameMissing; cbn [prevYear]; now rewrite Hframe.
      * rewrite (renderLayer_single mapData layerType _ frame);
          [|assumption|congruence|now left].
        rewrite (renderLayer_single mapData layerType _ frame);
          [reflexivity|assumption|congruence|].
        right. apply strict_eq_Fin. reflexivity.
    + rewrite !renderLayer_missing; [reflexivity| |];
        unfold frameMissing; cbn [prevYear]; now rewrite Hframe.
  - intros Hbelow mapData layerType g.
    destruct (yearBracket_below_range dataType y Hbelow) as (a & -> & _).
    now apply renderLayer_missing.
Qed.

Lemma renderLayer_outside_range_witness :
  renderLayer ∅ (yearBracket (Fin 2005) "population") "population" halfDraws
  = ({| drawn := None; newStats := None |}, halfDraws).
Proof.
  apply (proj2 (renderLayer_outside_range "population" 2005)).
  intros e He. simpl in He.
  destruct He as [[= <-]|[[= <-]|[[= <-]|[]]]]; reflexivity.
Defined.


(* ===================================================================== *)
(** ** The year transition *)
(* ===================================================================== *)

Section Transition.

Implicit Types (start target : list number) (p : number) (g : Rng).

Lemma transitionCells_done start : forall (i : nat) target p g,
  Num.geb p (Fin 1) = true ->
  transitionCells start i target p g
  = (map (fun j => target !! j) (seq i (length start)), g).
Proof.
  induction start as [|s start IH]; intros i target p g Hp; [reflexivity|].
  cbn [transitionCells length seq map]. unfold bind, ret. rewrite Hp.
  now rewrite (IH (S i) target p g Hp).
Qed.

Lemma lookups_all target :
  map (fun j => target !! j) (seq 0 (length target)) = map Some target.
Proof.
  apply (list_eq_same_length _ _ (length target)).
  - now rewrite length_map.
  - now rewrite length_map, length_seq.
  - intros i x y Hi Hx Hy.
    rewrite list_lookup_fmap in Hy. rewrite list_lookup_fmap, lookup_seq_lt in Hx by lia.
    cbn in Hx. injection Hx as <-.
    destruct (target !! i); [|discriminate]. now injection Hy as <-.
Qed.


Lemma animationProgress_Fin (t t0 : Q) :
  exists x : Q,
    animationProgress (Fin t) (Fin t0) = Fin x /\
    (500 <= t - t0 -> 1 <= x) /\ (t - t0 < 500 -> x < 1) /\ (t <= t0 -> x <= 0).
Proof.
  unfold animationProgress.
  change (Num.div (Num.sub (Fin t) (Fin t0)) (num 500))
    with (Fin ((t + - t0) / inject_Z 500)).
  rewrite min2_Fin.
  assert (Hdiv : (t + - t0) / inject_Z 500 == (t - t0) * (1 # 500)) by (unfold inject_Z; field).
  destruct (Num.ltb (Fin 1) (Fin ((t + - t0) / inject_Z 500))) eqn:E.
  - apply ltb_Fin in E. rewrite Hdiv in E. exists 1. split; [reflexivity|].
    repeat split; intros; lra.
  - apply ltb_Fin_false in E. rewrite Hdiv in E. eexists. split; [reflexivity|].
    rewrite Hdiv. repeat split; intros; lra.
Qed.

End Transition.

(** X23.  From 500 ms after its start on, a frame callback of the year
    transition shows the target cells as they are, makes no draw and asks
    for no further frame; a start cell past the end of the target array
    becomes [undefined]. *)
Theorem transition_completes :
  forall (start target : list number) (t t0 : Q) (g : Rng),
    500 <= t - t0 ->
    requestsNextFrame (Fin t) (Fin t0) = false /\
    transitionData start target (Fin t) (Fin t0) g
    = (map (fun j => target !! j) (seq 0 (length start)), g) /\
    (length start = length target ->
     (transitionData start target (Fin t) (Fin t0) g).1 = map Some target).
Proof.
  intros start target t t0 g Hdone.
  destruct (animationProgress_Fin t t0) as (x & Hx & Hge & _ & _).
  specialize (Hge Hdone).
  assert (Hp : Num.geb (animationProgress (Fin t) (Fin t0)) (Fin 1) = true).
  { rewrite Hx. now apply geb_Fin. }
  assert (Hdata : transitionData start target (Fin t) (Fin t0) g
                  = (map (fun j => target !! j) (seq 0 (length start)), g)).
  { unfold transitionData. now apply transitionCells_done. }
  split; [|split].
  - unfold requestsNextFrame. rewrite Hx. now apply ltb_Fin_false.
  - exact Hdata.
  - intros Hlen. rewrite Hdata, Hlen. apply lookups_all.
Qed.

Lemma transition_completes_witness :
  requestsNextFrame (Fin 1700) (Fin 1200) = false /\
  transitionData [num 7; num 8] [num 9; num 12] (Fin 1700) (Fin 1200) climbingDraws
  = (map (fun j => [num 9; num 12] !! j) (seq 0 2), climbingDraws) /\
  (length [num 7; num 8] = length [num 9; num 12] ->
   (transitionData [num 7; num 8] [num 9; num 12] (Fin 1700) (Fin 1200) climbingDraws).1
   = map Some [num 9; num 12]).
Proof.
  apply (transition_completes [num 7; num 8] [num 9; num 12] 1700 1200 climbingDraws).
  discriminate.
Defined.




(* ===================================================================== *)
(** ** More on the year bracket and on interpolation *)
(* ===================================================================== *)

(** X25.  For a year within the range of the available years, [progress]
    is a number of [[0, 1)], and it is 0 exactly when the year is one of
    the available years. *)
Theorem yearBracket_progress_range :
  forall (dataType : string) (y : Q),
    withinRange (getAvailableYears dataType) (Fin y) = true ->
    exists p : Q,
      progress (yearBracket (Fin y) dataType) = Fin p /\
      0 <= p /\ p < 1 /\
      (p == 0 <-> exists e, In (Fin e) (getAvailableYears dataType) /\ e == y).
Proof.
  intros dataType y Hin. unfold yearBracket.
  destruct (getAvailableYears_finite dataType) as (ys & Hys & _). rewrite Hys in *.
  destruct (resolveTemporalQuery_within ys y Hin)
    as (b & a & p & -> & Hb & Ha & Hsame & Hdiff).
  destruct Hb as ((eb & Heb & Hebb) & Hby & Hbmax).
  destruct Ha as ((ea & Hea & Heaa) & Hya & Hamin).
  exists p. split; [reflexivity|].
  destruct (Qeq_dec b a) as [Heq|Hne].
  - specialize (Hsame Heq). rewrite Hsame.
    split; [lra|]. split; [lra|]. split; [|reflexivity].
    intros _. exists eb. split; [assumption|]. lra.
  - specialize (Hdiff Hne).
    assert (Hba : b < a) by lra.
    assert (Hlt : y < a).
    { destruct (Qlt_le_dec y a) as [|Hge]; [assumption|]. exfalso.
      specialize (Hbmax ea Hea). lra. }
    assert (H0 : 0 <= (y - b) / (a - b)) by (apply Qle_shift_div_l; lra).
    assert (H1 : (y - b) / (a - b) < 1) by (apply Qlt_shift_div_r; lra).
    rewrite Hdiff. split; [assumption|]. split; [assumption|]. split.
    + intros Hz. exists eb. split; [assumption|].
      assert (Hyb : y - b == (y - b) / (a - b) * (a - b)) by (field; lra).
      rewrite Hz, Qmult_0_l in Hyb. lra.
    + intros (e & He & Hey). exfalso.
      specialize (Hbmax e He). specialize (Hamin e He). lra.
Qed.

Lemma yearBracket_progress_range_witness :
  exists p : Q,
    progress (yearBracket (Fin 2017) "population") = Fin p /\
    0 <= p /\ p < 1 /\
    (p == 0 <-> exists e, In (Fin e) (getAvailableYears "population") /\ e == 2017).
Proof.
  apply (yearBracket_progress_range "population" 2017). reflexivity.
Defined.

Section InterpolationDraws.

Implicit Types (a b : list number) (p s e : number) (g : Rng).

Lemma advanced_0 g : advanced g 0 = g.
Proof. unfold advanced. rewrite Nat.add_0_r. now destruct g. Qed.

Lemma advanced_S g (n : nat) :
  advanced {| draws := draws g; cursor := S (cursor g) |} n = advanced g (S n).
Proof. unfold advanced. cbn. f_equal. lia. Qed.

Lemma blendCells_cursor a : forall b p g,
  (blendCells a b p g).2 = advanced g (differingCells a b).
Proof.
  induction a as [|s a IH]; intros [|e b] p g; try (cbn; now rewrite advanced_0).
  rewrite blendCells_cons. cbn [snd]. rewrite IH.
  unfold differingCells. cbn [zip zip_with List.filter]. unfold blendCell, bind, ret, Math_random.
  destruct (Num.strict_eq s e); cbn [negb snd length].
  - reflexivity.
  - apply advanced_S.
Qed.

(** A progress that is not above 0 never wins against a draw of [[0, 1)],
    and a progress of at least 1 always does. *)
Lemma draw_against_progress p (r : Q) :
  0 <= r -> r < 1 ->
  (Num.gtb p (Fin 0) = false -> Num.ltb (Fin r) p = false) /\
  (Num.geb p (Fin 1) = true -> Num.ltb (Fin r) p = true).
Proof.
  intros H0 H1. destruct p as [q| | |]; cbn; try (split; congruence).
  change (match r ?= q with Lt => true | _ => false end) with (Num.ltb (Fin r) (Fin q)).
  change (match q ?= 0 with Gt => true | _ => false end) with (Num.gtb (Fin q) (Fin 0)).
  change (match q ?= 1 with Gt | Eq => true | _ => false end) with (Num.geb (Fin q) (Fin 1)).
  split; intros H.
  - apply gtb_Fin_false in H. apply ltb_Fin_false. lra.
  - apply geb_Fin in H. apply ltb_Fin. lra.
Qed.

End InterpolationDraws.

(** X26.  On two arrays of the same non-zero length, [interpolateData]
    returns an array of that length and makes exactly one draw for each
    index at which the two cells differ, none for the others. *)
Theorem interpolateData_draws_per_differing_cell :
  forall (a b : list number) (p : number) (g : Rng),
    length a = length b -> a <> [] ->
    length (interpolateData a b p g).1 = length a /\
    (interpolateData a b p g).2 = advanced g (differingCells a b).
Proof.
  intros a b p g Hlen Hne. rewrite interpolateData_blend by assumption.
  split; [now apply blendCells_length | apply blendCells_cursor].
Qed.

Lemma interpolateData_draws_per_differing_cell_witness :
  length (interpolateData [num 7; num 8; num 9] [num 7; num 12; num 9] (Fin 0.4) halfDraws).1
  = 3%nat /\
  (interpolateData [num 7; num 8; num 9] [num 7; num 12; num 9] (Fin 0.4) halfDraws).2
  = advanced halfDraws 1.
Proof.
  apply (interpolateData_draws_per_differing_cell
           [num 7; num 8; num 9] [num 7; num 12; num 9] (Fin 0.4) halfDraws).
  - reflexivity.
  - discriminate.
Defined.

(** X27.  With draws in [[0, 1)], the progress saturates: a progress that
    is not above 0 (a negative number, 0, [-Infinity], and also [NaN])
    returns the start array, and a progress of at least 1 (including
    [Infinity]) returns the end array at every index. *)
Theorem interpolateData_progress_saturates :
  forall (a b : list number) (p : number) (g : Rng),
    length a = length b -> a <> [] -> unit_draws g ->
    (Num.gtb p (Fin 0) = false -> (interpolateData a b p g).1 = a) /\
    (Num.geb p (Fin 1) = true -> Forall2 num_eq (interpolateData a b p g).1 b).
Proof.
  intros a b p g Hlen Hne Hunit.
  rewrite !interpolateData_blend by assumption. split; intros Hp.
  - apply (list_eq_same_length _ _ (length a)); [reflexivity| |].
    + now apply blendCells_length.
    + intros i x y Hi Hx Hy.
      destruct (lookup_same_length a b i y Hlen Hy) as (e & He).
      destruct (blendCells_lookup a b p g i y e Hy He) as (c & Hc & _ & Hsame & Hdiff).
      rewrite Hx in Hc. injection Hc as <-.
      destruct (Num.strict_eq y e) eqn:E; [now apply Hsame|].
      destruct (Hdiff eq_refl) as (n & ->).
      destruct (Hunit n) as [H0 H1].
      now rewrite (proj1 (draw_against_progress p (draws g n) H0 H1) Hp).
  - apply Forall2_same_length_lookup. split; [now rewrite blendCells_length|].
    intros i x y Hx Hy.
    assert (Hi : (i < length a)%nat).
    { rewrite Hlen. now apply lookup_lt_Some in Hy. }
    apply lookup_lt_is_Some_2 in Hi as [s Hs].
    destruct (blendCells_lookup a b p g i s y Hs Hy) as (c & Hc & _ & Hsame & Hdiff).
    rewrite Hx in Hc. injection Hc as <-.
    destruct (Num.strict_eq s y) eqn:E.
    + rewrite (Hsame eq_refl). now apply strict_eq_num_eq.
    + destruct (Hdiff eq_refl) as (n & ->).
      destruct (Hunit n) as [H0 H1].
      rewrite (proj2 (draw_against_progress p (draws g n) H0 H1) Hp).
      apply num_eq_refl.
Qed.

Lemma interpolateData_progress_saturates_witness :
  (interpolateData [num 7; num 8] [num 7; num 12] NaN halfDraws).1 = [num 7; num 8] /\
  Forall2 num_eq (interpolateData [num 7; num 8] [num 7; num 12] PInf halfDraws).1
    [num 7; num 12].
Proof.
  split.
  - apply (proj1 (interpolateData_progress_saturates
                    [num 7; num 8] [num 7; num 12] NaN halfDraws eq_refl
                    ltac:(discriminate) ltac:(intros n; simpl; lra))).
    reflexivity.
  - apply (proj2 (interpolateData_progress_saturates
                    [num 7; num 8] [num 7; num 12] PInf halfDraws eq_refl
                    ltac:(discriminate) ltac:(intros n; simpl; lra))).
    reflexivity.
Defined.

(* ===================================================================== *)
(** ** Decoding a colour *)
(* ===================================================================== *)

Section HexColour.

Lemma toUint8Clamp_byte (z : Z) :
  (0 <= z)%Z -> (z <= 255)%Z -> toUint8Clamp (num z) = z.
Proof.
  intros H0 H255. unfold toUint8Clamp, num.
  destruct (Qle_bool (inject_Z z) 0) eqn:E0.
  - apply Qle_bool_iff in E0. change 0 with (inject_Z 0) in E0.
    rewrite <- Zle_Qle in E0. lia.
  - destruct (Qle_bool 255 (inject_Z z)) eqn:E255.
    + apply Qle_bool_iff in E255. change 255 with (inject_Z 255) in E255.
      rewrite <- Zle_Qle in E255. lia.
    + unfold roundHalfEven. rewrite Qfloor_Z.
      assert (Hc : (inject_Z z - inject_Z z ?= 1 # 2) = Lt).
      { apply (proj1 (Qlt_alt _ _)). generalize (inject_Z z). intros q. lra. }
      now rewrite Hc.
Qed.

Lemma hexDigit_range (c : Ascii.ascii) (v : Z) :
  hexDigit c = Some v -> (0 <= v)%Z /\ (v <= 15)%Z.
Proof.
  unfold hexDigit.
  set (n := Z.of_N (Ascii.N_of_ascii c)).
  destruct ((48 <=? n)%Z && (n <=? 57)%Z) eqn:E1.
  { intros [= <-]. apply andb_true_iff in E1 as [H1 H2].
    apply Z.leb_le in H1, H2. lia. }
  destruct ((97 <=? n)%Z && (n <=? 102)%Z) eqn:E2.
  { intros [= <-]. apply andb_true_iff in E2 as [H1 H2].
    apply Z.leb_le in H1, H2. lia. }
  destruct ((65 <=? n)%Z && (n <=? 70)%Z) eqn:E3; [|discriminate].
  intros [= <-]. apply andb_true_iff in E3 as [H1 H2].
  apply Z.leb_le in H1, H2. lia.
Qed.

Lemma parseInt16_pair (c1 c2 : Ascii.ascii) (v1 v2 : Z) :
  hexDigit c1 = Some v1 -> hexDigit c2 = Some v2 ->
  parseInt16 (String c1 (String c2 EmptyString)) = num (16 * v1 + v2).
Proof.
  intros H1 H2. unfold parseInt16. cbn [hexPrefix]. rewrite H1, H2.
  cbn [default from_option id]. reflexivity.
Qed.

End HexColour.

(** X28.  The pixel of a colour written [#rrggbb] with hexadecimal digits
    holds, byte by byte, the values of the three digit pairs, and at
    opacity 1 it is fully opaque. *)
Theorem hex_colour_decoded :
  forall (r1 r2 g1 g2 b1 b2 : Ascii.ascii) (vr1 vr2 vg1 vg2 vb1 vb2 : Z),
    hexDigit r1 = Some vr1 -> hexDigit r2 = Some vr2 ->
    hexDigit g1 = Some vg1 -> hexDigit g2 = Some vg2 ->
    hexDigit b1 = Some vb1 -> hexDigit b2 = Some vb2 ->
    channels (hexColor r1 r2 g1 g2 b1 b2) (Fin 1)
    = (16 * vr1 + vr2, 16 * vg1 + vg2, 16 * vb1 + vb2, 255)%Z.
Proof.
  intros r1 r2 g1 g2 b1 b2 vr1 vr2 vg1 vg2 vb1 vb2 Hr1 Hr2 Hg1 Hg2 Hb1 Hb2.
  unfold channels, hexColor.
  change (slice _ 1 3) with (String r1 (String r2 EmptyString)).
  change (slice _ 3 5) with (String g1 (String g2 EmptyString)).
  change (slice _ 5 7) with (String b1 (String b2 EmptyString)).
  rewrite (parseInt16_pair _ _ _ _ Hr1 Hr2), (parseInt16_pair _ _ _ _ Hg1 Hg2),
    (parseInt16_pair _ _ _ _ Hb1 Hb2).
  apply hexDigit_range in Hr1, Hr2, Hg1, Hg2, Hb1, Hb2.
  rewrite !toUint8Clamp_byte by lia.
  reflexivity.
Qed.

Lemma hex_colour_decoded_witness :
  channels (hexColor "d"%char "7"%char "3"%char "0"%char "2"%char "7"%char) (Fin 1)
  = (215, 48, 39, 255)%Z.
Proof.
  apply (hex_colour_decoded "d"%char "7"%char "3"%char "0"%char "2"%char "7"%char
           13 7 3 0 2 7); reflexivity.
Defined.
